(** * W25Q64: the Winbond W25Q64 SPI flash driver (W25Q64.hpp, W25Q64.cpp)

    A shallow embedding of the driver class [W25Q64] and of the part of the
    Arduino environment it talks to, followed by the properties of its
    command framing, transaction discipline and busy gate.

    Conventions of the embedding.
    - [byte] values and the [unsigned int] address are integers in [Z]; the
      cast [(byte)] is written out as [byte_cast].  [unsigned int] is taken
      to be 32 bits wide, so that [addr >> 16] is a plain right shift.
    - The hardware is a log of the calls made on the Arduino API ([event]),
      oldest first, and a deterministic slave [device] that answers every
      [SPI.transfer] from the log so far and the byte sent.
    - Methods run in a state monad over [machine] (the object's fields and
      the log).
    - An output pointer ([byte *reg], [byte *buff]) is rendered as a returned
      value: the byte stored through it, or for a walked buffer the list of
      the bytes stored at [buff[0]], [buff[1]], ... in order.  An input
      buffer is the view of memory from the pointer, [buff i] being
      [*(buff + i)]. *)

From Stdlib Require Import ZArith List Lia Bool.
Import ListNotations.
Local Open Scope Z_scope.

(** ** Register definitions (W25Q64.hpp, lines 23-51) *)

Definition W25Q64_WRITE_ENABLE : Z := 0x06.
Definition W25Q64_VOLATILE_WRITE_ENABLE : Z := 0x50.
Definition W25Q64_WRITE_DISABLE : Z := 0x04.
Definition W25Q64_RELEASE_POWER_DOWN : Z := 0xAB.
Definition W25Q64_MANUFACTURER_ID : Z := 0x90.
Definition W25Q64_JEDEC_ID : Z := 0x9F.
Definition W25Q64_READ_UNIQUE_ID : Z := 0x4B.
Definition W25Q64_READ_DATA : Z := 0x03.
Definition W25Q64_FAST_READ : Z := 0x0B.
Definition W25Q64_PAGE_PROGRAM : Z := 0x02.
Definition W25Q64_SECTOR_ERASE : Z := 0x20.
Definition W25Q64_BLOCK_32_ERASE : Z := 0x52.
Definition W25Q64_BLOCK_64_ERASE : Z := 0xD8.
Definition W25Q64_CHIP_ERASE : Z := 0xC7.
Definition W25Q64_READ_STATUS_REGISTER_1 : Z := 0x05.
Definition W25Q64_WRITE_STATUS_REGISTER_1 : Z := 0x01.
Definition W25Q64_READ_STATUS_REGISTER_2 : Z := 0x35.
Definition W25Q64_WRITE_STATUS_REGISTER_2 : Z := 0x31.
Definition W25Q64_READ_STATUS_REGISTER_3 : Z := 0x15.
Definition W25Q64_WRITE_STATUS_REGISTER_3 : Z := 0x11.
Definition W25Q64_READ_SFDP_REGISTER : Z := 0x5A.
Definition W25Q64_ERASE_SECURITY_REGISTER : Z := 0x44.
Definition W25Q64_PROGRAM_SECURITY_REGISTER : Z := 0x42.
Definition W25Q64_READ_SECURITY_REGISTER : Z := 0x48.
Definition W25Q64_ERASE_PROGRAM_SUSPEND : Z := 0x75.
Definition W25Q64_ERASE_PROGRAM_RESUME : Z := 0x7A.
Definition W25Q64_POWER_DOWN : Z := 0xB9.
Definition W25Q64_ENABLE_RESET : Z := 0x66.
Definition W25Q64_RESET_DEVICE : Z := 0x99.

(** ** The Arduino side: pins and SPI settings *)

Inductive level := LOW | HIGH.
Inductive pin_mode := INPUT | OUTPUT.
Inductive bit_order := LSBFIRST | MSBFIRST.
Inductive spi_mode := SPI_MODE_0 | SPI_MODE_1 | SPI_MODE_2 | SPI_MODE_3.

Record SPISettings := mkSPISettings
  { clock : Z; bitOrder : bit_order; dataMode : spi_mode }.

(** SPI settings (W25Q64.hpp, lines 54-57) *)
Definition W25Q64_SPI_SPEED : Z := 50000000.
Definition W25Q64_READ_DATA_SPI_SPEED : Z := 50000000.
Definition W25Q64_SPI_MODE : spi_mode := SPI_MODE_0.
Definition W25Q64_SPI_DATA_ORDER : bit_order := MSBFIRST.

(** Chip settings (W25Q64.hpp, line 60) *)
Definition W25Q64_MAX_ADDRESS : Z := 0x7FFFFF.

(** ** The standard return enum (W25Q64.hpp, lines 65-71) *)

Inductive W25Q64_status_t :=
| W25Q64_OK
| W25Q64_BUSY
| W25Q64_UNKOWN_MANUFACTURER_ID
| W25Q64_UNKOWN_DEVICE_ID.

(** ** The object: private fields of class W25Q64 (lines 373-375) *)

Record W25Q64 := mkW25Q64
  { _spi_settings : SPISettings;
    _cs_pin : Z;
    _status : W25Q64_status_t }.

(** The default member initializer of [_spi_settings] (line 373). *)
Definition default_spi_settings : SPISettings :=
  mkSPISettings W25Q64_SPI_SPEED W25Q64_SPI_DATA_ORDER W25Q64_SPI_MODE.

(** A freshly constructed object: [_cs_pin] and [_status] have no
    initializer, so their first values are whatever the storage holds. *)
Definition W25Q64_new (cs0 : Z) (st0 : W25Q64_status_t) : W25Q64 :=
  mkW25Q64 default_spi_settings cs0 st0.

(** ** The log of calls on the Arduino API *)

Inductive event :=
| EPinMode (pin : Z) (m : pin_mode)
| EDigitalWrite (pin : Z) (l : level)
| ESPIBegin
| EBeginTransaction (s : SPISettings)
| EEndTransaction
| ETransfer (mosi miso : Z).

Record machine := mkMachine { self : W25Q64; bus : list event }.

(** [(byte) x]: conversion to an 8-bit unsigned value. *)
Definition byte_cast (x : Z) : Z := Z.land x 0xFF.

(** ** The state monad the methods run in *)

Definition M (A : Type) : Type := machine -> A * machine.

Definition ret {A} (a : A) : M A := fun m => (a, m).

Definition bind {A B} (c : M A) (k : A -> M B) : M B :=
  fun m => let (a, m') := c m in k a m'.

Declare Scope drv_scope.
Delimit Scope drv_scope with drv.
Notation "x <- c ;; k" := (bind c (fun x => k))
  (at level 61, c at next level, right associativity) : drv_scope.
Notation "c ;; k" := (bind c (fun _ => k))
  (at level 61, right associativity) : drv_scope.
Local Open Scope drv_scope.

Definition log (e : event) : M unit :=
  fun m => (tt, mkMachine (self m) (bus m ++ [e])).

Definition this : M W25Q64 := fun m => (self m, m).

Definition set__cs_pin (p : Z) : M unit :=
  fun m => (tt, mkMachine
                  (mkW25Q64 (_spi_settings (self m)) p (_status (self m)))
                  (bus m)).

Definition set__status (s : W25Q64_status_t) : M unit :=
  fun m => (tt, mkMachine
                  (mkW25Q64 (_spi_settings (self m)) (_cs_pin (self m)) s)
                  (bus m)).

(** [for (int i = 0; i < n; i++) body(i)] *)
Fixpoint for_loop_from (i : Z) (n : nat) (body : Z -> M unit) : M unit :=
  match n with
  | O => ret tt
  | S n' => body i ;; for_loop_from (i + 1) n' body
  end.

Definition for_loop (n : nat) (body : Z -> M unit) : M unit :=
  for_loop_from 0 n body.

Section Driver.

(** The slave on the bus: the byte it shifts out during a transfer, from
    everything that happened before and the byte shifted in. *)
Variable device : list event -> Z -> Z.

(** *** Arduino primitives *)

Definition pinMode (pin : Z) (md : pin_mode) : M unit := log (EPinMode pin md).
Definition digitalWrite (pin : Z) (l : level) : M unit :=
  log (EDigitalWrite pin l).
Definition SPI_begin : M unit := log ESPIBegin.
Definition SPI_beginTransaction (s : SPISettings) : M unit :=
  log (EBeginTransaction s).
Definition SPI_endTransaction : M unit := log EEndTransaction.

(** [SPI.transfer(data)]: full-duplex exchange of one byte. *)
Definition SPI_transfer (data : Z) : M Z :=
  fun m =>
    let r := byte_cast (device (bus m) data) in
    (r, mkMachine (self m) (bus m ++ [ETransfer data r])).

(** *** Private helpers (W25Q64.hpp, lines 386-404) *)

Definition _select : M unit :=
  o <- this ;;
  digitalWrite (_cs_pin o) LOW ;;
  SPI_beginTransaction (_spi_settings o).

Definition _release : M unit :=
  o <- this ;;
  digitalWrite (_cs_pin o) HIGH ;;
  SPI_endTransaction.

(** [while (len > 0) { *buff = SPI.transfer(0); *buff++; len--; }]
    The result lists the bytes stored at buff[0], buff[1], ... *)
Fixpoint read_loop (len : nat) : M (list Z) :=
  match len with
  | O => ret []
  | S len' =>
      v <- SPI_transfer 0 ;;
      rest <- read_loop len' ;;
      ret (v :: rest)
  end.

(** [while (len > 0) { SPI.transfer( *buff); *buff++; len--; }] *)
Fixpoint write_loop (buff : nat -> Z) (len : nat) : M unit :=
  match len with
  | O => ret tt
  | S len' =>
      SPI_transfer (buff O) ;;
      write_loop (fun i => buff (S i)) len'
  end.

(** [for (int i = 0; i < 3; i++) SPI.transfer((byte)(addr >> ((2-i)*8)));] *)
Definition send_address (addr : Z) : M unit :=
  for_loop 3 (fun i =>
    SPI_transfer (byte_cast (Z.shiftr addr ((2 - i) * 8))) ;; ret tt).

(** *** Chip instructions without a busy check *)

Definition readStatusRegister1 : M (W25Q64_status_t * Z) :=
  _select ;;
  SPI_transfer W25Q64_READ_STATUS_REGISTER_1 ;;
  reg <- SPI_transfer 0 ;;
  _release ;;
  ret (W25Q64_OK, reg).

Definition readStatusRegister2 : M (W25Q64_status_t * Z) :=
  _select ;;
  SPI_transfer W25Q64_READ_STATUS_REGISTER_2 ;;
  reg <- SPI_transfer 0 ;;
  _release ;;
  ret (W25Q64_OK, reg).

Definition readStatusRegister3 : M (W25Q64_status_t * Z) :=
  _select ;;
  SPI_transfer W25Q64_READ_STATUS_REGISTER_3 ;;
  reg <- SPI_transfer 0 ;;
  _release ;;
  ret (W25Q64_OK, reg).

Definition busy : M bool :=
  r <- readStatusRegister1 ;;
  let status_reg_1 := snd r in
  if negb (Z.land status_reg_1 1 =? 0) then ret true else ret false.

Definition writeEnable : M W25Q64_status_t :=
  _select ;; SPI_transfer W25Q64_WRITE_ENABLE ;; _release ;; ret W25Q64_OK.

Definition volatileWriteEnable : M W25Q64_status_t :=
  _select ;; SPI_transfer W25Q64_VOLATILE_WRITE_ENABLE ;; _release ;;
  ret W25Q64_OK.

Definition writeDisable : M W25Q64_status_t :=
  _select ;; SPI_transfer W25Q64_WRITE_DISABLE ;; _release ;; ret W25Q64_OK.

Definition releasePowerDown : M W25Q64_status_t :=
  _select ;; SPI_transfer W25Q64_RELEASE_POWER_DOWN ;; _release ;;
  ret W25Q64_OK.

Definition eraseProgramSuspend : M W25Q64_status_t :=
  _select ;; SPI_transfer W25Q64_ERASE_PROGRAM_SUSPEND ;; _release ;;
  ret W25Q64_OK.

Definition eraseProgramResume : M W25Q64_status_t :=
  _select ;; SPI_transfer W25Q64_ERASE_PROGRAM_RESUME ;; _release ;;
  ret W25Q64_OK.

Definition powerDown : M W25Q64_status_t :=
  _select ;; SPI_transfer W25Q64_POWER_DOWN ;; _release ;; ret W25Q64_OK.

Definition enableReset : M W25Q64_status_t :=
  _select ;; SPI_transfer W25Q64_ENABLE_RESET ;; _release ;; ret W25Q64_OK.

Definition resetDevice : M W25Q64_status_t :=
  _select ;; SPI_transfer W25Q64_RESET_DEVICE ;; _release ;; ret W25Q64_OK.

(** [buff[5]] is filled by the for loop; [buff[3]] and [buff[4]] are
    stored through the two pointers, in this order. *)
Definition readManufacturerId : M (W25Q64_status_t * Z * Z) :=
  _select ;;
  SPI_transfer W25Q64_MANUFACTURER_ID ;;
  buff <- read_loop 5 ;;
  let manufacturer_id := nth 3 buff 0 in
  let device_id := nth 4 buff 0 in
  _release ;;
  ret (W25Q64_OK, manufacturer_id, device_id).

Definition readJedecId : M (W25Q64_status_t * Z * Z * Z) :=
  _select ;;
  SPI_transfer W25Q64_JEDEC_ID ;;
  manufacturer_id <- SPI_transfer 0 ;;
  memory_type <- SPI_transfer 0 ;;
  capacity <- SPI_transfer 0 ;;
  _release ;;
  ret (W25Q64_OK, manufacturer_id, memory_type, capacity).

(** The source returns after the second loop; there is no [_release()]. *)
Definition readUniqueId : M (W25Q64_status_t * list Z) :=
  _select ;;
  SPI_transfer W25Q64_READ_UNIQUE_ID ;;
  for_loop 4 (fun _ => SPI_transfer 0 ;; ret tt) ;;
  unique_id <- read_loop 8 ;;
  ret (W25Q64_OK, unique_id).

(** *** init and reset (W25Q64.cpp, lines 14-53) *)

Definition init (cs_pin : Z) : M W25Q64_status_t :=
  set__cs_pin cs_pin ;;
  o <- this ;;
  pinMode (_cs_pin o) OUTPUT ;;
  digitalWrite (_cs_pin o) HIGH ;;
  SPI_begin ;;
  r <- readManufacturerId ;;
  let '(st, manufacturer_id, device_id) := r in
  set__status st ;;
  if negb (manufacturer_id =? 0xEF) then ret W25Q64_UNKOWN_MANUFACTURER_ID
  else if negb (device_id =? 0x16) then ret W25Q64_UNKOWN_DEVICE_ID
  else ret W25Q64_OK.

Definition reset : M W25Q64_status_t :=
  b <- busy ;;
  if b then ret W25Q64_BUSY else
  enableReset ;;
  resetDevice ;;
  ret W25Q64_OK.


(** *** Operations behind the busy check (W25Q64.cpp, lines 124-384) *)

Definition readData (addr : Z) (len : nat) : M (W25Q64_status_t * list Z) :=
  b <- busy ;;
  if b then ret (W25Q64_BUSY, []) else
  _select ;;
  SPI_beginTransaction
    (mkSPISettings W25Q64_READ_DATA_SPI_SPEED W25Q64_SPI_DATA_ORDER
                   W25Q64_SPI_MODE) ;;
  SPI_transfer W25Q64_READ_DATA ;;
  send_address addr ;;
  buff <- read_loop len ;;
  _release ;;
  ret (W25Q64_OK, buff).

Definition fastRead (addr : Z) (len : nat) : M (W25Q64_status_t * list Z) :=
  b <- busy ;;
  if b then ret (W25Q64_BUSY, []) else
  _select ;;
  SPI_transfer W25Q64_FAST_READ ;;
  send_address addr ;;
  SPI_transfer 0 ;;
  buff <- read_loop len ;;
  _release ;;
  ret (W25Q64_OK, buff).

Definition pageProgram (addr : Z) (buff : nat -> Z) (len : nat)
  : M W25Q64_status_t :=
  b <- busy ;;
  if b then ret W25Q64_BUSY else
  _select ;;
  SPI_transfer W25Q64_PAGE_PROGRAM ;;
  send_address addr ;;
  write_loop buff len ;;
  _release ;;
  ret W25Q64_OK.

Definition sectorErase (addr : Z) : M W25Q64_status_t :=
  b <- busy ;;
  if b then ret W25Q64_BUSY else
  _select ;;
  SPI_transfer W25Q64_SECTOR_ERASE ;;
  send_address addr ;;
  _release ;;
  ret W25Q64_OK.

Definition block32Erase (addr : Z) : M W25Q64_status_t :=
  b <- busy ;;
  if b then ret W25Q64_BUSY else
  _select ;;
  SPI_transfer W25Q64_BLOCK_32_ERASE ;;
  send_address addr ;;
  _release ;;
  ret W25Q64_OK.

Definition block64Erase (addr : Z) : M W25Q64_status_t :=
  b <- busy ;;
  if b then ret W25Q64_BUSY else
  _select ;;
  SPI_transfer W25Q64_BLOCK_64_ERASE ;;
  send_address addr ;;
  _release ;;
  ret W25Q64_OK.

Definition chipErase : M W25Q64_status_t :=
  b <- busy ;;
  if b then ret W25Q64_BUSY else
  _select ;;
  SPI_transfer W25Q64_CHIP_ERASE ;;
  _release ;;
  ret W25Q64_OK.

Definition writeStatusRegister1 (reg : Z) : M W25Q64_status_t :=
  b <- busy ;;
  if b then ret W25Q64_BUSY else
  _select ;;
  SPI_transfer W25Q64_WRITE_STATUS_REGISTER_1 ;;
  SPI_transfer reg ;;
  _release ;;
  ret W25Q64_OK.

Definition writeStatusRegister2 (reg : Z) : M W25Q64_status_t :=
  b <- busy ;;
  if b then ret W25Q64_BUSY else
  _select ;;
  SPI_transfer W25Q64_WRITE_STATUS_REGISTER_2 ;;
  SPI_transfer reg ;;
  _release ;;
  ret W25Q64_OK.

Definition writeStatusRegister3 (reg : Z) : M W25Q64_status_t :=
  b <- busy ;;
  if b then ret W25Q64_BUSY else
  _select ;;
  SPI_transfer W25Q64_WRITE_STATUS_REGISTER_3 ;;
  SPI_transfer reg ;;
  _release ;;
  ret W25Q64_OK.

Definition readSFDPRegister (addr : Z) (len : nat)
  : M (W25Q64_status_t * list Z) :=
  b <- busy ;;
  if b then ret (W25Q64_BUSY, []) else
  _select ;;
  SPI_transfer W25Q64_READ_SFDP_REGISTER ;;
  send_address addr ;;
  SPI_transfer 0 ;;
  buff <- read_loop len ;;
  _release ;;
  ret (W25Q64_OK, buff).

Definition eraseSecurityRegister (addr : Z) : M W25Q64_status_t :=
  b <- busy ;;
  if b then ret W25Q64_BUSY else
  _select ;;
  SPI_transfer W25Q64_ERASE_SECURITY_REGISTER ;;
  send_address addr ;;
  _release ;;
  ret W25Q64_OK.

Definition programSecurityRegister (addr : Z) (buff : nat -> Z) (len : nat)
  : M W25Q64_status_t :=
  b <- busy ;;
  if b then ret W25Q64_BUSY else
  _select ;;
  SPI_transfer W25Q64_PROGRAM_SECURITY_REGISTER ;;
  send_address addr ;;
  write_loop buff len ;;
  _release ;;
  ret W25Q64_OK.

Definition readSecurityRegister (addr : Z) (len : nat)
  : M (W25Q64_status_t * list Z) :=
  b <- busy ;;
  if b then ret (W25Q64_BUSY, []) else
  _select ;;
  SPI_transfer W25Q64_READ_SECURITY_REGISTER ;;
  send_address addr ;;
  SPI_transfer 0 ;;
  buff <- read_loop len ;;
  _release ;;
  ret (W25Q64_OK, buff).

(** ** The public interface as data

    One constructor per public method, so that a property can range over
    "every operation".  [exec] runs the method and returns its status code
    with the bytes it stored through its output pointers, in order. *)

Inductive call :=
| c_init (cs_pin : Z)
| c_reset
| c_writeEnable
| c_volatileWriteEnable
| c_writeDisable
| c_releasePowerDown
| c_readManufacturerId
| c_readJedecId
| c_readUniqueId
| c_readData (addr : Z) (len : nat)
| c_fastRead (addr : Z) (len : nat)
| c_pageProgram (addr : Z) (buff : nat -> Z) (len : nat)
| c_sectorErase (addr : Z)
| c_block32Erase (addr : Z)
| c_block64Erase (addr : Z)
| c_chipErase
| c_readStatusRegister1
| c_writeStatusRegister1 (reg : Z)
| c_readStatusRegister2
| c_writeStatusRegister2 (reg : Z)
| c_readStatusRegister3
| c_writeStatusRegister3 (reg : Z)
| c_readSFDPRegister (addr : Z) (len : nat)
| c_eraseSecurityRegister (addr : Z)
| c_programSecurityRegister (addr : Z) (buff : nat -> Z) (len : nat)
| c_readSecurityRegister (addr : Z) (len : nat)
| c_eraseProgramSuspend
| c_eraseProgramResume
| c_powerDown
| c_enableReset
| c_resetDevice.

Definition no_output (c : M W25Q64_status_t) : M (W25Q64_status_t * list Z) :=
  s <- c ;; ret (s, []).

Definition exec (c : call) : M (W25Q64_status_t * list Z) :=
  match c with
  | c_init cs_pin => no_output (init cs_pin)
  | c_reset => no_output reset
  | c_writeEnable => no_output writeEnable
  | c_volatileWriteEnable => no_output volatileWriteEnable
  | c_writeDisable => no_output writeDisable
  | c_releasePowerDown => no_output releasePowerDown
  | c_readManufacturerId =>
      r <- readManufacturerId ;;
      let '(s, manufacturer_id, device_id) := r in
      ret (s, [manufacturer_id; device_id])
  | c_readJedecId =>
      r <- readJedecId ;;
      let '(s, manufacturer_id, memory_type, capacity) := r in
      ret (s, [manufacturer_id; memory_type; capacity])
  | c_readUniqueId => readUniqueId
  | c_readData addr len => readData addr len
  | c_fastRead addr len => fastRead addr len
  | c_pageProgram addr buff len => no_output (pageProgram addr buff len)
  | c_sectorErase addr => no_output (sectorErase addr)
  | c_block32Erase addr => no_output (block32Erase addr)
  | c_block64Erase addr => no_output (block64Erase addr)
  | c_chipErase => no_output chipErase
  | c_readStatusRegister1 =>
      r <- readStatusRegister1 ;; ret (fst r, [snd r])
  | c_writeStatusRegister1 reg => no_output (writeStatusRegister1 reg)
  | c_readStatusRegister2 =>
      r <- readStatusRegister2 ;; ret (fst r, [snd r])
  | c_writeStatusRegister2 reg => no_output (writeStatusRegister2 reg)
  | c_readStatusRegister3 =>
      r <- readStatusRegister3 ;; ret (fst r, [snd r])
  | c_writeStatusRegister3 reg => no_output (writeStatusRegister3 reg)
  | c_readSFDPRegister addr len => readSFDPRegister addr len
  | c_eraseSecurityRegister addr => no_output (eraseSecurityRegister addr)
  | c_programSecurityRegister addr buff len =>
      no_output (programSecurityRegister addr buff len)
  | c_readSecurityRegister addr len => readSecurityRegister addr len
  | c_eraseProgramSuspend => no_output eraseProgramSuspend
  | c_eraseProgramResume => no_output eraseProgramResume
  | c_powerDown => no_output powerDown
  | c_enableReset => no_output enableReset
  | c_resetDevice => no_output resetDevice
  end.

(** Status code, stored bytes and log of a run. *)
Definition status_of (c : call) (m : machine) : W25Q64_status_t :=
  fst (fst (exec c m)).
Definition stored_by (c : call) (m : machine) : list Z :=
  snd (fst (exec c m)).
Definition after (c : call) (m : machine) : machine := snd (exec c m).

(** The busy flag as the device would report it in state [m]. *)
Definition busy_flag (m : machine) : bool := fst (busy m).
Definition after_busy (m : machine) : machine := snd (busy m).

(** ** Classes of operations *)

(** The operations that alter memory contents or persistent configuration. *)
Definition mutating (c : call) : bool :=
  match c with
  | c_pageProgram _ _ _ | c_sectorErase _ | c_block32Erase _
  | c_block64Erase _ | c_chipErase
  | c_writeStatusRegister1 _ | c_writeStatusRegister2 _
  | c_writeStatusRegister3 _
  | c_eraseSecurityRegister _ | c_programSecurityRegister _ _ _ => true
  | _ => false
  end.

(** The read-only operations whose body starts with [if(busy()) return]. *)
Definition gated_read (c : call) : bool :=
  match c with
  | c_readData _ _ | c_fastRead _ _
  | c_readSFDPRegister _ _ | c_readSecurityRegister _ _ => true
  | _ => false
  end.

(** The read-only operations whose body starts with [_select()]. *)
Definition ungated_read (c : call) : bool :=
  match c with
  | c_readManufacturerId | c_readJedecId | c_readUniqueId
  | c_readStatusRegister1 | c_readStatusRegister2 | c_readStatusRegister3 =>
      true
  | _ => false
  end.

Definition read_only (c : call) : bool := gated_read c || ungated_read c.

(** Every method whose body starts with [if(busy()) return W25Q64_BUSY]. *)
Definition busy_gated (c : call) : bool :=
  match c with
  | c_reset => true
  | _ => mutating c || gated_read c
  end.

(** The opcode that opens the operation's own transaction. *)
Definition opcode (c : call) : Z :=
  match c with
  | c_init _ => W25Q64_MANUFACTURER_ID
  | c_reset => W25Q64_ENABLE_RESET
  | c_writeEnable => W25Q64_WRITE_ENABLE
  | c_volatileWriteEnable => W25Q64_VOLATILE_WRITE_ENABLE
  | c_writeDisable => W25Q64_WRITE_DISABLE
  | c_releasePowerDown => W25Q64_RELEASE_POWER_DOWN
  | c_readManufacturerId => W25Q64_MANUFACTURER_ID
  | c_readJedecId => W25Q64_JEDEC_ID
  | c_readUniqueId => W25Q64_READ_UNIQUE_ID
  | c_readData _ _ => W25Q64_READ_DATA
  | c_fastRead _ _ => W25Q64_FAST_READ
  | c_pageProgram _ _ _ => W25Q64_PAGE_PROGRAM
  | c_sectorErase _ => W25Q64_SECTOR_ERASE
  | c_block32Erase _ => W25Q64_BLOCK_32_ERASE
  | c_block64Erase _ => W25Q64_BLOCK_64_ERASE
  | c_chipErase => W25Q64_CHIP_ERASE
  | c_readStatusRegister1 => W25Q64_READ_STATUS_REGISTER_1
  | c_writeStatusRegister1 _ => W25Q64_WRITE_STATUS_REGISTER_1
  | c_readStatusRegister2 => W25Q64_READ_STATUS_REGISTER_2
  | c_writeStatusRegister2 _ => W25Q64_WRITE_STATUS_REGISTER_2
  | c_readStatusRegister3 => W25Q64_READ_STATUS_REGISTER_3
  | c_writeStatusRegister3 _ => W25Q64_WRITE_STATUS_REGISTER_3
  | c_readSFDPRegister _ _ => W25Q64_READ_SFDP_REGISTER
  | c_eraseSecurityRegister _ => W25Q64_ERASE_SECURITY_REGISTER
  | c_programSecurityRegister _ _ _ => W25Q64_PROGRAM_SECURITY_REGISTER
  | c_readSecurityRegister _ _ => W25Q64_READ_SECURITY_REGISTER
  | c_eraseProgramSuspend => W25Q64_ERASE_PROGRAM_SUSPEND
  | c_eraseProgramResume => W25Q64_ERASE_PROGRAM_RESUME
  | c_powerDown => W25Q64_POWER_DOWN
  | c_enableReset => W25Q64_ENABLE_RESET
  | c_resetDevice => W25Q64_RESET_DEVICE
  end.

(** The address argument of the addressed operations. *)
Definition address (c : call) : option Z :=
  match c with
  | c_readData addr _ | c_fastRead addr _ | c_pageProgram addr _ _
  | c_sectorErase addr | c_block32Erase addr | c_block64Erase addr
  | c_readSFDPRegister addr _ | c_eraseSecurityRegister addr
  | c_programSecurityRegister addr _ _ | c_readSecurityRegister addr _ =>
      Some addr
  | _ => None
  end.

(** The same call at another address. *)
Definition at_address (c : call) (a : Z) : call :=
  match c with
  | c_readData _ len => c_readData a len
  | c_fastRead _ len => c_fastRead a len
  | c_pageProgram _ buff len => c_pageProgram a buff len
  | c_sectorErase _ => c_sectorErase a
  | c_block32Erase _ => c_block32Erase a
  | c_block64Erase _ => c_block64Erase a
  | c_readSFDPRegister _ len => c_readSFDPRegister a len
  | c_eraseSecurityRegister _ => c_eraseSecurityRegister a
  | c_programSecurityRegister _ buff len => c_programSecurityRegister a buff len
  | c_readSecurityRegister _ len => c_readSecurityRegister a len
  | _ => c
  end.

(** The first [len] bytes of an input buffer. *)
Definition buffer_bytes (buff : nat -> Z) (len : nat) : list Z :=
  map buff (seq 0 len).

(** What an operation sends after its opcode and address: the dummy byte of
    the fast reads, then the payload (zeros clock a read out; [reset] goes on
    with its second opcode). *)
Definition trailer (c : call) : list Z :=
  match c with
  | c_init _ | c_readManufacturerId => repeat 0 5
  | c_reset => [W25Q64_RESET_DEVICE]
  | c_readJedecId => repeat 0 3
  | c_readUniqueId => repeat 0 12
  | c_readStatusRegister1 | c_readStatusRegister2 | c_readStatusRegister3 =>
      [0]
  | c_writeStatusRegister1 reg | c_writeStatusRegister2 reg
  | c_writeStatusRegister3 reg => [reg]
  | c_readData _ len => repeat 0 len
  | c_fastRead _ len | c_readSFDPRegister _ len
  | c_readSecurityRegister _ len => 0 :: repeat 0 len
  | c_pageProgram _ buff len | c_programSecurityRegister _ buff len =>
      buffer_bytes buff len
  | _ => []
  end.

(** ** Reading the log *)

(** The bytes the master shifted out, in order. *)
Fixpoint mosi_bytes (evs : list event) : list Z :=
  match evs with
  | [] => []
  | ETransfer o _ :: evs' => o :: mosi_bytes evs'
  | _ :: evs' => mosi_bytes evs'
  end.

(** The bytes the slave shifted out, in order. *)
Fixpoint miso_bytes (evs : list event) : list Z :=
  match evs with
  | [] => []
  | ETransfer _ i :: evs' => i :: miso_bytes evs'
  | _ :: evs' => miso_bytes evs'
  end.

(** The events of one call of [_select()] and of [_release()]. *)
Definition select_events (o : W25Q64) : list event :=
  [EDigitalWrite (_cs_pin o) LOW; EBeginTransaction (_spi_settings o)].
Definition release_events (o : W25Q64) : list event :=
  [EDigitalWrite (_cs_pin o) HIGH; EEndTransaction].

(** One status-register-1 read: opcode 0x05 and one byte clocked in,
    between [_select()] and [_release()]. *)
Definition status_read_events (o : W25Q64) (r0 r1 : Z) : list event :=
  select_events o
  ++ [ETransfer W25Q64_READ_STATUS_REGISTER_1 r0; ETransfer 0 r1]
  ++ release_events o.

(** Calls of [begin()] and [end()] counted on the chip-select line, and
    transactions closed. *)
Definition is_cs_low (e : event) : bool :=
  match e with EDigitalWrite _ LOW => true | _ => false end.
Definition is_cs_high (e : event) : bool :=
  match e with EDigitalWrite _ HIGH => true | _ => false end.
Definition is_end_transaction (e : event) : bool :=
  match e with EEndTransaction => true | _ => false end.
Definition is_transfer (e : event) : bool :=
  match e with ETransfer _ _ => true | _ => false end.

(** The transaction discipline on a log.  The state is (chip selected,
    transaction open).  Chip select goes low only when released, a
    transaction is opened or reconfigured only while selected, bytes move
    only inside an open transaction of a selected chip, the transaction is
    closed only after chip select went high. *)
Definition scope_step (st : bool * bool) (e : event) : option (bool * bool) :=
  let (sel, txn) := st in
  match e with
  | EPinMode _ _ | ESPIBegin => Some st
  | EDigitalWrite _ LOW => if sel then None else Some (true, txn)
  | EBeginTransaction _ => if sel then Some (sel, true) else None
  | ETransfer _ _ => if sel && txn then Some st else None
  | EDigitalWrite _ HIGH =>
      if sel then Some (false, txn) else if txn then None else Some st
  | EEndTransaction => if negb sel && txn then Some (sel, false) else None
  end.

Fixpoint scope_run (st : bool * bool) (evs : list event)
  : option (bool * bool) :=
  match evs with
  | [] => Some st
  | e :: evs' =>
      match scope_step st e with
      | Some st' => scope_run st' evs'
      | None => None
      end
  end.

(** A log fragment that starts and ends with the chip released and no
    transaction open, and respects the discipline in between. *)
Definition well_scoped (evs : list event) : bool :=
  match scope_run (false, false) evs with
  | Some (false, false) => true
  | _ => false
  end.

(** ** Sample slaves and machines *)

(** A slave that answers every transfer with the same byte. *)
Definition always (v : Z) : list event -> Z -> Z := fun _ _ => v.

(** A slave that answers the n-th transfer on the bus with the n-th byte
    of a script (and 0 when the script is exhausted). *)
Definition scripted (script : list Z) : list event -> Z -> Z :=
  fun history _ => nth (length (mosi_bytes history)) script 0.

(** A constructed object on chip-select pin 10 and an empty log. *)
Definition power_on : machine :=
  mkMachine (W25Q64_new 10 W25Q64_OK) [].

(** ** Specifications of runs

    [emits c m a evs]: from [m], the computation [c] returns [a], appends
    [evs] to the log and leaves the object's fields alone.  [sat c m Q] says
    so for some [a] and [evs] that satisfy [Q]. *)

Definition emits {A} (c : M A) (m : machine) (a : A) (evs : list event)
  : Prop :=
  c m = (a, mkMachine (self m) (bus m ++ evs)).

Definition sat {A} (c : M A) (m : machine) (Q : A -> list event -> Prop)
  : Prop :=
  exists a evs, emits c m a evs /\ Q a evs.

(** The transfers that send [outs] and receive [ins], pairwise. *)
Definition transfers (outs ins : list Z) : list event :=
  map (fun p => ETransfer (fst p) (snd p)) (combine outs ins).

(** The three address bytes, most significant first. *)
Definition address_bytes (addr : Z) : list Z :=
  [byte_cast (Z.shiftr addr 16); byte_cast (Z.shiftr addr 8); byte_cast addr].

(** Everything an operation sends once it is past its busy check. *)
Definition sent (c : call) : list Z :=
  opcode c
  :: match address c with Some a => address_bytes a | None => [] end
  ++ trailer c.

(** The machine an operation's own first transaction starts from. *)
Definition gate (c : call) (m : machine) : machine :=
  if busy_gated c then after_busy m else m.

(** The answers an operation stores through its output pointers: what the
    slave shifts out after the opcode, address and dummy bytes (for
    [readManufacturerId], after [buff[0..2]] as well). *)
Definition kept (c : call) (ins : list Z) : list Z :=
  match c with
  | c_readManufacturerId => skipn 4 ins
  | c_readJedecId => skipn 1 ins
  | c_readUniqueId => skipn 5 ins
  | c_readStatusRegister1 | c_readStatusRegister2 | c_readStatusRegister3 =>
      skipn 1 ins
  | c_readData _ _ => skipn 4 ins
  | c_fastRead _ _ | c_readSFDPRegister _ _ | c_readSecurityRegister _ _ =>
      skipn 5 ins
  | _ => []
  end.

Definition is_init (c : call) : bool :=
  match c with c_init _ => true | _ => false end.

Definition is_readUniqueId (c : call) : bool :=
  match c with c_readUniqueId => true | _ => false end.

Definition is_reset (c : call) : bool :=
  match c with c_reset => true | _ => false end.

(** How many times chip select was pulled low in a log fragment. *)
Definition selects (evs : list event) : nat :=
  length (filter is_cs_low evs).

(** What a completed operation looks like on the bus: it returns OK, its
    events start with [_select()], it sends [sent c], it stores the answers
    [kept c], it selects the chip once ([reset]: twice), and (but for
    [readUniqueId]) it respects the transaction discipline. *)
Definition frame (c : call) (o : W25Q64)
           (a : W25Q64_status_t * list Z) (evs : list event) : Prop :=
  fst a = W25Q64_OK /\
  (exists rest, evs = select_events o ++ rest) /\
  mosi_bytes evs = sent c /\
  snd a = kept c (miso_bytes evs) /\
  selects evs = (if is_reset c then 2%nat else 1%nat) /\
  well_scoped evs = negb (is_readUniqueId c).

(** What [init] appends to the log: the pin and bus set-up of lines 17-19,
    then the transaction of [readManufacturerId]. *)
Definition handshake_events (cs_pin : Z) (s : SPISettings)
           (r b0 b1 b2 b3 b4 : Z) : list event :=
  [EPinMode cs_pin OUTPUT; EDigitalWrite cs_pin HIGH; ESPIBegin]
  ++ [EDigitalWrite cs_pin LOW; EBeginTransaction s]
  ++ [ETransfer W25Q64_MANUFACTURER_ID r; ETransfer 0 b0; ETransfer 0 b1;
      ETransfer 0 b2; ETransfer 0 b3; ETransfer 0 b4]
  ++ [EDigitalWrite cs_pin HIGH; EEndTransaction].

(** The settings [readData] passes to its own [SPI.beginTransaction]. *)
Definition read_data_settings : SPISettings :=
  mkSPISettings W25Q64_READ_DATA_SPI_SPEED W25Q64_SPI_DATA_ORDER
                W25Q64_SPI_MODE.


(** ** Further classes of operations and of log events *)

(** The commands that are one opcode and nothing else, sent without a busy
    check (W25Q64.cpp, lines 57-83 and 386-419). *)
Definition simple_command (c : call) : bool :=
  match c with
  | c_writeEnable | c_volatileWriteEnable | c_writeDisable
  | c_releasePowerDown | c_eraseProgramSuspend | c_eraseProgramResume
  | c_powerDown | c_enableReset | c_resetDevice => true
  | _ => false
  end.

(** The three status-register reads. *)
Definition status_read (c : call) : bool :=
  match c with
  | c_readStatusRegister1 | c_readStatusRegister2 | c_readStatusRegister3 =>
      true
  | _ => false
  end.

(** The number of dummy bytes a read sends between address and data. *)
Definition dummy_bytes (c : call) : nat :=
  match c with
  | c_fastRead _ _ | c_readSFDPRegister _ _ | c_readSecurityRegister _ _ =>
      1%nat
  | _ => 0%nat
  end.

(** The [len] argument of the operations that have one. *)
Definition length_argument (c : call) : nat :=
  match c with
  | c_readData _ len | c_fastRead _ len | c_pageProgram _ _ len
  | c_readSFDPRegister _ len | c_programSecurityRegister _ _ len
  | c_readSecurityRegister _ len => len
  | _ => O
  end.

(** The payload of the mutating operations that take no address: nothing for
    [chipErase], the register value for the status-register writes. *)
Definition unaddressed_payload (c : call) : option (list Z) :=
  match c with
  | c_chipErase => Some []
  | c_writeStatusRegister1 reg | c_writeStatusRegister2 reg
  | c_writeStatusRegister3 reg => Some [reg]
  | _ => None
  end.

(** The same programming call on another buffer. *)
Definition with_buffer (c : call) (buff : nat -> Z) : call :=
  match c with
  | c_pageProgram addr _ len => c_pageProgram addr buff len
  | c_programSecurityRegister addr _ len =>
      c_programSecurityRegister addr buff len
  | _ => c
  end.

(** The buffer of a programming call agrees with [buff'] on the offsets
    below [len]. *)
Definition agrees_with_buffer (c : call) (buff' : nat -> Z) : Prop :=
  match c with
  | c_pageProgram _ buff len | c_programSecurityRegister _ buff len =>
      forall i, (i < len)%nat -> buff i = buff' i
  | _ => True
  end.

(** The register definitions of W25Q64.hpp, lines 23-51, in order. *)
Definition opcode_table : list Z :=
  [W25Q64_WRITE_ENABLE; W25Q64_VOLATILE_WRITE_ENABLE; W25Q64_WRITE_DISABLE;
   W25Q64_RELEASE_POWER_DOWN; W25Q64_MANUFACTURER_ID; W25Q64_JEDEC_ID;
   W25Q64_READ_UNIQUE_ID; W25Q64_READ_DATA; W25Q64_FAST_READ;
   W25Q64_PAGE_PROGRAM; W25Q64_SECTOR_ERASE; W25Q64_BLOCK_32_ERASE;
   W25Q64_BLOCK_64_ERASE; W25Q64_CHIP_ERASE; W25Q64_READ_STATUS_REGISTER_1;
   W25Q64_WRITE_STATUS_REGISTER_1; W25Q64_READ_STATUS_REGISTER_2;
   W25Q64_WRITE_STATUS_REGISTER_2; W25Q64_READ_STATUS_REGISTER_3;
   W25Q64_WRITE_STATUS_REGISTER_3; W25Q64_READ_SFDP_REGISTER;
   W25Q64_ERASE_SECURITY_REGISTER; W25Q64_PROGRAM_SECURITY_REGISTER;
   W25Q64_READ_SECURITY_REGISTER; W25Q64_ERASE_PROGRAM_SUSPEND;
   W25Q64_ERASE_PROGRAM_RESUME; W25Q64_POWER_DOWN; W25Q64_ENABLE_RESET;
   W25Q64_RESET_DEVICE].

(** A caller that invokes the operations [cs] one after the other. *)
Fixpoint run_all (cs : list call) (m : machine) : machine :=
  match cs with
  | [] => m
  | c :: cs' => run_all cs' (after c m)
  end.

(** An event that touches nothing but the object's own chip-select pin and
    opens transactions only with the object's settings or with the ones
    [readData] builds; no pin is reconfigured, the bus is not restarted. *)
Definition own_event (o : W25Q64) (e : event) : Prop :=
  match e with
  | EDigitalWrite pin _ => pin = _cs_pin o
  | EBeginTransaction s => s = _spi_settings o \/ s = read_data_settings
  | EEndTransaction | ETransfer _ _ => True
  | EPinMode _ _ | ESPIBegin => False
  end.

(** Two machines that differ at most in the [_status] field. *)
Definition same_but_status (m m' : machine) : Prop :=
  bus m = bus m' /\
  _cs_pin (self m) = _cs_pin (self m') /\
  _spi_settings (self m) = _spi_settings (self m').

(** A computation whose result and log do not depend on [_status]. *)
Definition ignores_status {A} (c : M A) : Prop :=
  forall m m',
    same_but_status m m' ->
    fst (c m) = fst (c m') /\ same_but_status (snd (c m)) (snd (c m')).

(** [power_on] with another value left in the [_status] field. *)
Definition power_on_stale : machine :=
  mkMachine (W25Q64_new 10 W25Q64_UNKOWN_DEVICE_ID) [].

(** * Properties *)

(** ** Bytes of the address *)

Lemma byte_cast_mod x : byte_cast x = x mod 256.
Proof.
  unfold byte_cast. change 0xFF with (Z.ones 8).
  rewrite Z.land_ones by lia. reflexivity.
Qed.

Lemma byte_cast_range x : 0 <= byte_cast x < 256.
Proof. rewrite byte_cast_mod. apply Z.mod_pos_bound. lia. Qed.

Lemma address_bytes_value a :
  byte_cast (Z.shiftr a 16) * 65536 + byte_cast (Z.shiftr a 8) * 256
  + byte_cast a = a mod 2 ^ 24.
Proof.
  rewrite !byte_cast_mod, !Z.shiftr_div_pow2 by lia.
  change (2 ^ 16) with 65536. change (2 ^ 8) with 256.
  change (2 ^ 24) with 16777216.
  Z.to_euclidean_division_equations. lia.
Qed.

Lemma byte_cast_shiftr_low24 a k :
  0 <= k <= 16 ->
  byte_cast (Z.shiftr (a mod 2 ^ 24) k) = byte_cast (Z.shiftr a k).
Proof.
  intros Hk. unfold byte_cast. apply Z.bits_inj'. intros n Hn.
  rewrite !Z.land_spec, !Z.shiftr_spec by lia.
  destruct (Z.ltb_spec n 8).
  - rewrite Z.mod_pow2_bits_low by lia. reflexivity.
  - change 0xFF with (Z.ones 8). rewrite Z.ones_spec_high by lia.
    rewrite !andb_false_r. reflexivity.
Qed.

Lemma address_bytes_low24 a : address_bytes (a mod 2 ^ 24) = address_bytes a.
Proof.
  unfold address_bytes.
  rewrite <- (Z.shiftr_0_r (a mod 2 ^ 24)), <- (Z.shiftr_0_r a) at 3.
  rewrite !byte_cast_shiftr_low24 by lia. rewrite !Z.shiftr_0_r. reflexivity.
Qed.

(** ** Reading the log: algebra *)

Lemma mosi_bytes_app e1 e2 :
  mosi_bytes (e1 ++ e2) = mosi_bytes e1 ++ mosi_bytes e2.
Proof.
  induction e1 as [|[] e1 IH]; cbn; rewrite ?IH; reflexivity.
Qed.

Lemma miso_bytes_app e1 e2 :
  miso_bytes (e1 ++ e2) = miso_bytes e1 ++ miso_bytes e2.
Proof.
  induction e1 as [|[] e1 IH]; cbn; rewrite ?IH; reflexivity.
Qed.

Lemma mosi_bytes_reads vs :
  mosi_bytes (map (ETransfer 0) vs) = repeat 0 (length vs).
Proof. induction vs as [|v vs IH]; cbn; rewrite ?IH; reflexivity. Qed.

Lemma miso_bytes_reads vs : miso_bytes (map (ETransfer 0) vs) = vs.
Proof. induction vs as [|v vs IH]; cbn; rewrite ?IH; reflexivity. Qed.

Lemma mosi_bytes_transfers outs ins :
  length ins = length outs -> mosi_bytes (transfers outs ins) = outs.
Proof.
  revert ins. induction outs as [|o outs IH]; intros [|i ins] H;
    cbn in *; try discriminate; try reflexivity.
  f_equal. apply IH. lia.
Qed.

Lemma scope_run_app st e1 e2 :
  scope_run st (e1 ++ e2) =
  match scope_run st e1 with
  | Some st' => scope_run st' e2
  | None => None
  end.
Proof.
  revert st. induction e1 as [|e e1 IH]; intros st; cbn; [reflexivity|].
  destruct (scope_step st e); [apply IH | reflexivity].
Qed.

Lemma scope_run_reads vs :
  scope_run (true, true) (map (ETransfer 0) vs) = Some (true, true).
Proof. induction vs as [|v vs IH]; cbn; [reflexivity | exact IH]. Qed.

Lemma scope_run_transfers outs ins :
  scope_run (true, true) (transfers outs ins) = Some (true, true).
Proof.
  unfold transfers. revert ins.
  induction outs as [|o outs IH]; intros [|i ins]; cbn; auto.
Qed.

(** ** Rules for runs *)

Lemma machine_eta m : mkMachine (self m) (bus m) = m.
Proof. destruct m; reflexivity. Qed.

Lemma sat_ret {A} (a : A) m (Q : A -> list event -> Prop) :
  Q a [] -> sat (ret a) m Q.
Proof.
  intros H. exists a, []. split; [|exact H].
  unfold emits, ret. rewrite app_nil_r, machine_eta. reflexivity.
Qed.

Lemma sat_bind {A B} (c : M A) (k : A -> M B) m
      (Q : B -> list event -> Prop) :
  sat c m (fun a e1 =>
    sat (k a) (mkMachine (self m) (bus m ++ e1))
        (fun b e2 => Q b (e1 ++ e2))) ->
  sat (bind c k) m Q.
Proof.
  intros (a & e1 & Hc & b & e2 & Hk & HQ). exists b, (e1 ++ e2).
  split; [|exact HQ]. unfold emits, bind in *. rewrite Hc, Hk. cbn.
  rewrite app_assoc. reflexivity.
Qed.

Lemma sat_log e m (Q : unit -> list event -> Prop) :
  Q tt [e] -> sat (log e) m Q.
Proof. intros H. exists tt, [e]. split; [reflexivity | exact H]. Qed.

Lemma sat_this m (Q : W25Q64 -> list event -> Prop) :
  Q (self m) [] -> sat this m Q.
Proof.
  intros H. exists (self m), []. split; [|exact H].
  unfold emits, this. rewrite app_nil_r, machine_eta. reflexivity.
Qed.

Lemma sat_transfer d m (Q : Z -> list event -> Prop) :
  (forall r, Q r [ETransfer d r]) -> sat (SPI_transfer d) m Q.
Proof.
  intros H. eexists _, _. split; [reflexivity | apply H].
Qed.

Lemma sat_select m (Q : unit -> list event -> Prop) :
  Q tt (select_events (self m)) -> sat _select m Q.
Proof.
  intros H. exists tt, (select_events (self m)). split; [|exact H].
  unfold emits, _select, bind, this, digitalWrite, SPI_beginTransaction, log.
  cbn. rewrite <- app_assoc. reflexivity.
Qed.

Lemma sat_release m (Q : unit -> list event -> Prop) :
  Q tt (release_events (self m)) -> sat _release m Q.
Proof.
  intros H. exists tt, (release_events (self m)). split; [|exact H].
  unfold emits, _release, bind, this, digitalWrite, SPI_endTransaction, log.
  cbn. rewrite <- app_assoc. reflexivity.
Qed.

Lemma sat_read_loop n : forall m (Q : list Z -> list event -> Prop),
  (forall vs, length vs = n -> Q vs (map (ETransfer 0) vs)) ->
  sat (read_loop n) m Q.
Proof.
  induction n as [|n IH]; intros m Q H; cbn [read_loop].
  - apply sat_ret. apply (H []). reflexivity.
  - apply sat_bind, sat_transfer. intros r.
    apply sat_bind, IH. intros vs Hvs.
    apply sat_ret. rewrite app_nil_r. apply (H (r :: vs)). cbn. congruence.
Qed.

Lemma buffer_bytes_S buff n :
  buffer_bytes buff (S n) = buff O :: buffer_bytes (fun i => buff (S i)) n.
Proof.
  unfold buffer_bytes. cbn. f_equal.
  rewrite <- seq_shift, map_map. reflexivity.
Qed.

Lemma sat_write_loop n : forall buff m (Q : unit -> list event -> Prop),
  (forall rs, length rs = n -> Q tt (transfers (buffer_bytes buff n) rs)) ->
  sat (write_loop buff n) m Q.
Proof.
  induction n as [|n IH]; intros buff m Q H; cbn [write_loop].
  - apply sat_ret. apply (H []). reflexivity.
  - apply sat_bind, sat_transfer. intros r.
    apply IH. intros rs Hrs.
    specialize (H (r :: rs)). rewrite buffer_bytes_S in H.
    apply H. cbn. congruence.
Qed.

Lemma sat_send_address addr m (Q : unit -> list event -> Prop) :
  (forall r2 r1 r0, Q tt (transfers (address_bytes addr) [r2; r1; r0])) ->
  sat (send_address addr) m Q.
Proof.
  intros H. unfold send_address, for_loop. cbn [for_loop_from].
  change ((2 - 0) * 8) with 16. change ((2 - (0 + 1)) * 8) with 8.
  change ((2 - (0 + 1 + 1)) * 8) with 0. rewrite Z.shiftr_0_r.
  apply sat_bind, sat_bind, sat_transfer. intros r2. apply sat_ret.
  apply sat_bind, sat_bind, sat_transfer. intros r1. apply sat_ret.
  apply sat_bind, sat_bind, sat_transfer. intros r0. apply sat_ret.
  apply sat_ret. cbn [app]. apply H.
Qed.

Ltac wp_step :=
  cbn beta;
  lazymatch goal with
  | |- sat (bind _ _) _ _ => apply sat_bind
  | |- sat (ret _) _ _ => apply sat_ret
  | |- sat _select _ _ => apply sat_select
  | |- sat _release _ _ => apply sat_release
  | |- sat this _ _ => apply sat_this
  | |- sat (SPI_transfer _) _ _ => apply sat_transfer; intro
  | |- sat (SPI_beginTransaction _) _ _ => apply sat_log
  | |- sat (send_address _) _ _ => apply sat_send_address; intros ? ? ?
  | |- sat (read_loop _) _ _ => apply sat_read_loop; intros ? ?
  | |- sat (write_loop _ _) _ _ => apply sat_write_loop; intros ? ?
  end;
  cbn [self bus].

Ltac wp := repeat wp_step; cbn beta.

(** ** The busy check *)

Lemma busy_run m :
  exists r0 r1,
    busy m = (negb (Z.land r1 1 =? 0),
              mkMachine (self m)
                        (bus m ++ status_read_events (self m) r0 r1)).
Proof.
  assert (H : sat busy m (fun b evs => exists r0 r1,
            b = negb (Z.land r1 1 =? 0)
            /\ evs = status_read_events (self m) r0 r1)).
  { unfold busy, readStatusRegister1. wp. cbn zeta. cbn [snd].
    match goal with
    | |- sat (if ?b then _ else _) _ _ => destruct b eqn:E
    end; wp; do 2 eexists; (split; [|reflexivity]); rewrite E;
      reflexivity. }
  destruct H as (b & evs & He & r0 & r1 & -> & ->).
  exists r0, r1. exact He.
Qed.

Lemma after_busy_self m : self (after_busy m) = self m.
Proof.
  unfold after_busy. destruct (busy_run m) as (r0 & r1 & ->). reflexivity.
Qed.

Lemma gate_run {A} (x : A) (body : M A) m :
  bind busy (fun b : bool => if b then ret x else body) m =
  if busy_flag m then (x, after_busy m) else body (after_busy m).
Proof.
  unfold bind, busy_flag, after_busy.
  destruct (busy m) as [[] mb]; reflexivity.
Qed.

Lemma readManufacturerId_run m :
  exists r b0 b1 b2 b3 b4,
    readManufacturerId m =
    ((W25Q64_OK, b3, b4),
     mkMachine (self m)
       (bus m ++ select_events (self m)
              ++ [ETransfer W25Q64_MANUFACTURER_ID r; ETransfer 0 b0;
                  ETransfer 0 b1; ETransfer 0 b2; ETransfer 0 b3;
                  ETransfer 0 b4]
              ++ release_events (self m))).
Proof.
  assert (H : sat readManufacturerId m (fun a evs =>
            exists r b0 b1 b2 b3 b4,
              a = (W25Q64_OK, b3, b4) /\
              evs = select_events (self m)
                    ++ [ETransfer W25Q64_MANUFACTURER_ID r; ETransfer 0 b0;
                        ETransfer 0 b1; ETransfer 0 b2; ETransfer 0 b3;
                        ETransfer 0 b4]
                    ++ release_events (self m))).
  { unfold readManufacturerId. cbn [read_loop]. wp.
    do 6 eexists. split; reflexivity. }
  destruct H as (a & evs & He & r & b0 & b1 & b2 & b3 & b4 & -> & ->).
  exists r, b0, b1, b2, b3, b4. exact He.
Qed.

Lemma gate_run_bind {A B} (x : A) (body : M A) (k : A -> M B) m :
  bind (bind busy (fun b : bool => if b then ret x else body)) k m =
  if busy_flag m then k x (after_busy m) else bind body k (after_busy m).
Proof.
  unfold bind, busy_flag, after_busy.
  destruct (busy m) as [[] mb]; reflexivity.
Qed.

Lemma sat_at {A} (c : M A) m0 o (P : A -> list event -> Prop) :
  self m0 = o -> sat c m0 P ->
  exists a evs, c m0 = (a, mkMachine o (bus m0 ++ evs)) /\ P a evs.
Proof. intros <- (a & evs & He & HP). exists a, evs. split; assumption. Qed.

Lemma length_buffer_bytes buff n : length (buffer_bytes buff n) = n.
Proof. unfold buffer_bytes. rewrite length_map, length_seq. reflexivity. Qed.

Lemma miso_bytes_transfers outs ins :
  length ins = length outs -> miso_bytes (transfers outs ins) = ins.
Proof.
  revert ins. induction outs as [|o outs IH]; intros [|i ins] H;
    cbn in *; try discriminate; try reflexivity.
  f_equal. apply IH. lia.
Qed.

Ltac log_simpl :=
  cbn [select_events release_events app transfers combine map fst snd
       address_bytes];
  repeat first
    [ rewrite mosi_bytes_app | rewrite miso_bytes_app
    | rewrite mosi_bytes_reads | rewrite miso_bytes_reads
    | rewrite mosi_bytes_transfers by (rewrite length_buffer_bytes; assumption)
    | rewrite miso_bytes_transfers by (rewrite length_buffer_bytes; assumption)
    | rewrite app_nil_r
    | progress cbn [mosi_bytes miso_bytes app skipn] ].

Ltac scope_simpl :=
  unfold well_scoped;
  cbn [select_events release_events app];
  repeat first
    [ rewrite scope_run_app
    | rewrite scope_run_reads
    | rewrite scope_run_transfers
    | progress cbn [scope_run scope_step andb negb app] ].

Lemma selects_app e1 e2 : selects (e1 ++ e2) = (selects e1 + selects e2)%nat.
Proof. unfold selects. rewrite filter_app, length_app. reflexivity. Qed.

Lemma selects_reads vs : selects (map (ETransfer 0) vs) = O.
Proof. induction vs as [|v vs IH]; [reflexivity | exact IH]. Qed.

Lemma selects_transfers outs ins : selects (transfers outs ins) = O.
Proof.
  unfold transfers. revert ins.
  induction outs as [|o outs IH]; intros [|i ins]; try reflexivity.
  apply IH.
Qed.

Ltac selects_simpl :=
  repeat first
    [ rewrite selects_app | rewrite selects_reads
    | rewrite selects_transfers ];
  cbn.

Ltac frame_facts :=
  rewrite ?after_busy_self;
  unfold frame;
  repeat match goal with |- _ /\ _ => split end;
  [ reflexivity
  | eexists; reflexivity
  | unfold sent; cbn [opcode address trailer kept fst snd]; log_simpl;
    repeat match goal with H : length _ = _ |- _ => rewrite H end;
    reflexivity
  | unfold sent; cbn [opcode address trailer kept fst snd]; log_simpl;
    reflexivity
  | selects_simpl; reflexivity
  | scope_simpl; reflexivity ].

Lemma own_transaction c m :
  is_init c = false ->
  (busy_gated c && busy_flag m = true
   /\ exec c m = ((W25Q64_BUSY, []), after_busy m))
  \/
  (busy_gated c && busy_flag m = false
   /\ exists a evs,
        exec c m = (a, mkMachine (self m) (bus (gate c m) ++ evs))
        /\ frame c (self m) a evs).
Proof.
  intros Hinit. destruct c; try discriminate Hinit; clear Hinit;
    unfold gate; cbn [busy_gated mutating gated_read orb andb];
    unfold exec, no_output, reset, readData, fastRead, pageProgram,
      sectorErase, block32Erase, block64Erase, chipErase,
      writeStatusRegister1, writeStatusRegister2, writeStatusRegister3,
      readSFDPRegister, eraseSecurityRegister, programSecurityRegister,
      readSecurityRegister;
    try rewrite gate_run_bind; try rewrite gate_run;
    try (destruct (busy_flag m); [left; split; reflexivity|]);
    right; (split; [reflexivity|]);
    (apply sat_at; [first [reflexivity | apply after_busy_self]|]).
  all: unfold writeEnable, volatileWriteEnable, writeDisable,
      releasePowerDown, eraseProgramSuspend, eraseProgramResume, powerDown,
      enableReset, resetDevice, readManufacturerId, readJedecId,
      readUniqueId, readStatusRegister1, readStatusRegister2,
      readStatusRegister3, for_loop; cbn [for_loop_from read_loop].
  all: wp.
  all: frame_facts.
Qed.

Lemma busy_flag_bit m :
  exists r0 r1,
    busy_flag m = negb (Z.land r1 1 =? 0) /\
    after_busy m =
    mkMachine (self m) (bus m ++ status_read_events (self m) r0 r1).
Proof.
  unfold busy_flag, after_busy.
  destruct (busy_run m) as (r0 & r1 & ->).
  exists r0, r1. split; reflexivity.
Qed.

Lemma mutating_gated c : mutating c = true -> busy_gated c = true.
Proof. destruct c; cbn; intros H; try discriminate H; reflexivity. Qed.

Lemma gated_read_gated c : gated_read c = true -> busy_gated c = true.
Proof. destruct c; cbn; intros H; try discriminate H; reflexivity. Qed.

Lemma gated_not_init c : busy_gated c = true -> is_init c = false.
Proof. destruct c; cbn; intros H; try discriminate H; reflexivity. Qed.

(** A gated operation called on a busy device stops after the check. *)
Lemma gated_busy c m :
  busy_gated c = true -> busy_flag m = true ->
  exec c m = ((W25Q64_BUSY, []), after_busy m).
Proof.
  intros Hg Hb.
  destruct (own_transaction c m (gated_not_init c Hg)) as [[_ H]|[H _]].
  - exact H.
  - rewrite Hg, Hb in H. discriminate H.
Qed.

(** A gated operation called on an idle device completes with OK. *)
Lemma gated_idle c m :
  busy_gated c = true -> busy_flag m = false ->
  exists a evs,
    exec c m = (a, mkMachine (self m) (bus (after_busy m) ++ evs))
    /\ frame c (self m) a evs.
Proof.
  intros Hg Hb.
  destruct (own_transaction c m (gated_not_init c Hg)) as [[H _]|[_ H]].
  - rewrite Hg, Hb in H. discriminate H.
  - unfold gate in H. rewrite Hg in H. exact H.
Qed.

(** An operation without a busy check always completes with OK. *)
Lemma ungated_run c m :
  busy_gated c = false -> is_init c = false ->
  exists a evs,
    exec c m = (a, mkMachine (self m) (bus m ++ evs))
    /\ frame c (self m) a evs.
Proof.
  intros Hg Hi.
  destruct (own_transaction c m Hi) as [[H _]|[_ H]].
  - rewrite Hg in H. discriminate H.
  - unfold gate in H. rewrite Hg in H. exact H.
Qed.

Lemma gated_status c m :
  busy_gated c = true ->
  status_of c m = if busy_flag m then W25Q64_BUSY else W25Q64_OK.
Proof.
  intros Hg. unfold status_of. destruct (busy_flag m) eqn:Hb.
  - rewrite (gated_busy c m Hg Hb). reflexivity.
  - destruct (gated_idle c m Hg Hb) as (a & evs & -> & Hf & _). exact Hf.
Qed.

(** C1.  A mutating operation called while status register 1 has bit 0
    set returns BUSY without a transaction of its own: all there is on the
    bus is the status-register-1 read by which the busy check learns the
    flag; the bytes sent are 0x05 and 0x00, the operation's opcode is not
    among them, and nothing follows. *)
Theorem busy_rejects_mutating c m :
  mutating c = true -> busy_flag m = true ->
  status_of c m = W25Q64_BUSY /\
  exists r0 r1,
    Z.land r1 1 <> 0 /\
    after c m =
    mkMachine (self m) (bus m ++ status_read_events (self m) r0 r1) /\
    mosi_bytes (status_read_events (self m) r0 r1)
    = [W25Q64_READ_STATUS_REGISTER_1; 0] /\
    ~ In (opcode c) [W25Q64_READ_STATUS_REGISTER_1; 0].
Proof.
  intros Hm Hb. pose proof (mutating_gated c Hm) as Hg.
  unfold status_of, after. rewrite (gated_busy c m Hg Hb). cbn [fst snd].
  split; [reflexivity|].
  destruct (busy_flag_bit m) as (r0 & r1 & Hbit & Hafter).
  exists r0, r1. repeat split.
  - rewrite Hb in Hbit. intros Hz. rewrite Hz in Hbit. discriminate Hbit.
  - exact Hafter.
  - destruct c; try discriminate Hm; cbv; intros [H|[H|[]]]; discriminate H.
Qed.

(** C10.  A busy-gated operation that returns BUSY did one status-register-1
    read (chip select low, transaction opened, 0x05 sent, one byte clocked
    in, chip select high, transaction closed) and nothing else: it stored
    nothing through its pointers and the object's fields are unchanged. *)
Theorem busy_rejection_footprint c m :
  busy_gated c = true -> status_of c m = W25Q64_BUSY ->
  exists r0 r1,
    bus (after c m) = bus m ++ status_read_events (self m) r0 r1 /\
    status_read_events (self m) r0 r1
    = [EDigitalWrite (_cs_pin (self m)) LOW;
       EBeginTransaction (_spi_settings (self m));
       ETransfer 0x05 r0; ETransfer 0 r1;
       EDigitalWrite (_cs_pin (self m)) HIGH; EEndTransaction] /\
    stored_by c m = [] /\
    self (after c m) = self m.
Proof.
  intros Hg Hs. rewrite (gated_status c m Hg) in Hs.
  destruct (busy_flag m) eqn:Hb; [|discriminate Hs].
  unfold stored_by, after. rewrite (gated_busy c m Hg Hb). cbn [fst snd].
  destruct (busy_flag_bit m) as (r0 & r1 & _ & ->).
  exists r0, r1. repeat split.
Qed.

(** C7.  [reset] starts with the busy check.  On a busy device it returns
    BUSY right after the check; otherwise it sends 0x66 in one transaction,
    0x99 in the next, with nothing in between, and returns OK. *)
Theorem reset_sequence m :
  exists r0 r1,
    busy m = (negb (Z.land r1 1 =? 0),
              mkMachine (self m)
                        (bus m ++ status_read_events (self m) r0 r1)) /\
    if busy_flag m
    then reset m = (W25Q64_BUSY, after_busy m)
    else exists x y,
        reset m =
        (W25Q64_OK,
         mkMachine (self m)
           (bus (after_busy m)
            ++ select_events (self m)
            ++ [ETransfer W25Q64_ENABLE_RESET x]
            ++ release_events (self m)
            ++ select_events (self m)
            ++ [ETransfer W25Q64_RESET_DEVICE y]
            ++ release_events (self m))).
Proof.
  destruct (busy_run m) as (r0 & r1 & Hb). exists r0, r1.
  split; [exact Hb|].
  unfold reset. rewrite gate_run. destruct (busy_flag m); [reflexivity|].
  assert (H : sat (enableReset;; resetDevice;; ret W25Q64_OK) (after_busy m)
                  (fun a evs => exists x y,
                       a = W25Q64_OK /\
                       evs = select_events (self m)
                             ++ [ETransfer W25Q64_ENABLE_RESET x]
                             ++ release_events (self m)
                             ++ select_events (self m)
                             ++ [ETransfer W25Q64_RESET_DEVICE y]
                             ++ release_events (self m))).
  { unfold enableReset, resetDevice. wp. rewrite !after_busy_self.
    do 2 eexists. split; [reflexivity|].
    cbn [select_events release_events app]. reflexivity. }
  destruct H as (a & evs & He & x & y & -> & ->).
  exists x, y. unfold emits in He. rewrite after_busy_self in He. exact He.
Qed.

(** ** Initialization *)

Lemma init_run cs_pin m :
  exists r b0 b1 b2 b3 b4,
    init cs_pin m =
    (if negb (b3 =? 0xEF) then W25Q64_UNKOWN_MANUFACTURER_ID
     else if negb (b4 =? 0x16) then W25Q64_UNKOWN_DEVICE_ID
     else W25Q64_OK,
     mkMachine
       (mkW25Q64 (_spi_settings (self m)) cs_pin W25Q64_OK)
       (bus m ++ handshake_events cs_pin (_spi_settings (self m))
                                  r b0 b1 b2 b3 b4)).
Proof.
  unfold init, bind at 1 2 3 4 5 6.
  unfold set__cs_pin, this, pinMode, digitalWrite, SPI_begin, log.
  cbn [self bus _cs_pin _spi_settings _status].
  match goal with
  | |- context [readManufacturerId ?m2] =>
      destruct (readManufacturerId_run m2) as (r & b0 & b1 & b2 & b3 & b4 & H);
      rewrite H; clear H
  end.
  exists r, b0, b1, b2, b3, b4.
  unfold bind, set__status, ret.
  cbn [self bus _cs_pin _spi_settings _status select_events release_events].
  unfold handshake_events. rewrite <- !app_assoc. cbn [app].
  destruct (negb (b3 =? 0xEF)); [reflexivity|].
  destruct (negb (b4 =? 0x16)); reflexivity.
Qed.

(** C4.  [init] returns OK exactly when the handshake read manufacturer
    id 0xEF and device id 0x16; a wrong manufacturer id gives
    UNKOWN_MANUFACTURER_ID, otherwise a wrong device id gives
    UNKOWN_DEVICE_ID.  Whatever the result, the last thing [init] did is the
    handshake: the log ends with its release and the fields are the ones
    set before the comparison. *)
Theorem init_identity_check cs_pin m :
  exists r b0 b1 b2 manufacturer_id device_id,
    snd (init cs_pin m) =
    mkMachine
      (mkW25Q64 (_spi_settings (self m)) cs_pin W25Q64_OK)
      (bus m ++ handshake_events cs_pin (_spi_settings (self m))
                                 r b0 b1 b2 manufacturer_id device_id) /\
    (fst (init cs_pin m) = W25Q64_OK <->
     manufacturer_id = 0xEF /\ device_id = 0x16) /\
    (manufacturer_id <> 0xEF ->
     fst (init cs_pin m) = W25Q64_UNKOWN_MANUFACTURER_ID) /\
    (manufacturer_id = 0xEF -> device_id <> 0x16 ->
     fst (init cs_pin m) = W25Q64_UNKOWN_DEVICE_ID).
Proof.
  destruct (init_run cs_pin m) as (r & b0 & b1 & b2 & b3 & b4 & H).
  exists r, b0, b1, b2, b3, b4. rewrite H. cbn [fst snd].
  split; [reflexivity|].
  destruct (Z.eqb_spec b3 0xEF) as [E3|E3];
    destruct (Z.eqb_spec b4 0x16) as [E4|E4]; cbn [negb];
    repeat split; intros; try tauto; try discriminate; try reflexivity;
    try (destruct H0; contradiction).
Qed.

(** ** Address framing *)

Lemma send_address_low24 addr :
  send_address (addr mod 2 ^ 24) = send_address addr.
Proof.
  unfold send_address, for_loop. cbn [for_loop_from].
  change ((2 - 0) * 8) with 16. change ((2 - (0 + 1)) * 8) with 8.
  change ((2 - (0 + 1 + 1)) * 8) with 0.
  rewrite !byte_cast_shiftr_low24 by lia. reflexivity.
Qed.

Lemma exec_low24 c addr :
  address c = Some addr -> exec (at_address c (addr mod 2 ^ 24)) = exec c.
Proof.
  destruct c; cbn [address]; intros H; try discriminate H;
    injection H as ->; cbn [at_address exec];
    unfold readData, fastRead, pageProgram, sectorErase, block32Erase,
      block64Erase, readSFDPRegister, eraseSecurityRegister,
      programSecurityRegister, readSecurityRegister;
    rewrite send_address_low24; reflexivity.
Qed.

Lemma address_gated c addr : address c = Some addr -> busy_gated c = true.
Proof. destruct c; cbn; intros H; try discriminate H; reflexivity. Qed.

(** C5.  On an idle chip every addressed operation returns OK and sends
    its opcode, then exactly three address bytes, then its dummy byte and
    payload; the three bytes are the 24 low bits of the address, most
    significant byte first.  On a busy chip it is rejected and sends
    nothing of its own, so no address byte either.  In both cases the run
    is the same for any two addresses that agree on the 24 low bits: the
    bits above are never transmitted. *)
Theorem address_framing c addr m :
  address c = Some addr ->
  exec (at_address c (addr mod 2 ^ 24)) m = exec c m /\
  if busy_flag m
  then status_of c m = W25Q64_BUSY /\ after c m = after_busy m
  else
    status_of c m = W25Q64_OK /\
    exists b2 b1 b0 evs,
      bus (after c m) = bus (after_busy m) ++ evs /\
      mosi_bytes evs = opcode c :: b2 :: b1 :: b0 :: trailer c /\
      (b2 = byte_cast (Z.shiftr addr 16) /\
       b1 = byte_cast (Z.shiftr addr 8) /\
       b0 = byte_cast addr) /\
      (0 <= b2 < 256 /\ 0 <= b1 < 256 /\ 0 <= b0 < 256) /\
      b2 * 65536 + b1 * 256 + b0 = addr mod 2 ^ 24.
Proof.
  intros Ha. split; [rewrite (exec_low24 c addr Ha); reflexivity|].
  pose proof (address_gated c addr Ha) as Hg.
  unfold status_of, after. destruct (busy_flag m) eqn:Hb.
  - rewrite (gated_busy c m Hg Hb). split; reflexivity.
  - destruct (gated_idle c m Hg Hb)
      as (a & evs & -> & Hok & _ & Hsent & _).
    cbn [fst snd bus]. split; [exact Hok|].
    exists (byte_cast (Z.shiftr addr 16)), (byte_cast (Z.shiftr addr 8)),
      (byte_cast addr), evs.
    split; [reflexivity|]. split.
    + rewrite Hsent. unfold sent. rewrite Ha. reflexivity.
    + split; [repeat split|].
      split; [auto using byte_cast_range|]. apply address_bytes_value.
Qed.

(** ** Read-only operations and the busy check *)

Lemma ungated_read_not_gated c :
  ungated_read c = true -> busy_gated c = false /\ is_init c = false.
Proof. destruct c; cbn; intros H; try discriminate H; split; reflexivity. Qed.

Lemma ungated_read_sends_zeros c :
  ungated_read c = true -> exists k, sent c = opcode c :: repeat 0 k.
Proof.
  destruct c; cbn [ungated_read]; intros H; try discriminate H;
    unfold sent; cbn [address trailer app]; eexists;
    try reflexivity; exact (eq_refl : _ :: [0] = _ :: repeat 0 1).
Qed.

(** C2 (as amended).  The identification reads and the status-register reads
    have no busy check: whatever the device answers they return OK, and
    what they append to the log is one transaction of their own, which
    starts the log fragment, sends the opcode and then only zeros.  The
    data, fast, SFDP and security-register reads do start with the busy
    check, and return BUSY exactly when it finds the flag set. *)
Theorem read_only_busy_behaviour c m :
  read_only c = true ->
  (ungated_read c = true /\
   status_of c m = W25Q64_OK /\
   exists rest k,
     bus (after c m) = bus m ++ select_events (self m) ++ rest /\
     mosi_bytes (select_events (self m) ++ rest) = opcode c :: repeat 0 k /\
     selects (select_events (self m) ++ rest) = 1%nat)
  \/
  (gated_read c = true /\
   (status_of c m = W25Q64_BUSY <-> busy_flag m = true) /\
   (busy_flag m = true -> after c m = after_busy m) /\
   exists evs, bus (after c m) = bus (after_busy m) ++ evs).
Proof.
  unfold read_only. intros H. apply orb_true_iff in H as [Hg|Hu].
  - right. split; [exact Hg|]. apply gated_read_gated in Hg.
    rewrite (gated_status c m Hg). unfold after.
    destruct (busy_flag m) eqn:Hb.
    + rewrite (gated_busy c m Hg Hb). cbn [snd].
      repeat split; auto. exists []. rewrite app_nil_r. reflexivity.
    + destruct (gated_idle c m Hg Hb) as (a & evs & -> & _).
      repeat split; intros; try discriminate. exists evs. reflexivity.
  - left. split; [exact Hu|].
    destruct (ungated_read_not_gated c Hu) as [Hg Hi].
    destruct (ungated_read_sends_zeros c Hu) as (k & Hk).
    destruct (ungated_run c m Hg Hi)
      as (a & evs & He & Hok & (rest & ->) & Hsent & _ & Hsel & _).
    unfold status_of, after. rewrite He. cbn [fst snd bus].
    split; [exact Hok|]. exists rest, k. repeat split.
    + rewrite Hsent. exact Hk.
    + rewrite Hsel. destruct c; try discriminate Hu; reflexivity.
Qed.

(** ** The transaction discipline *)

Lemma well_scoped_app e1 e2 :
  well_scoped e1 = true -> well_scoped e2 = true ->
  well_scoped (e1 ++ e2) = true.
Proof.
  unfold well_scoped. rewrite scope_run_app.
  destruct (scope_run (false, false) e1) as [[[] []]|]; intros H1 H2;
    try discriminate H1. exact H2.
Qed.

(** Every operation other than [readUniqueId] brackets each of its
    transactions with [_select()] and [_release()]. *)
Lemma other_operations_release c m :
  is_readUniqueId c = false ->
  exists evs, bus (after c m) = bus m ++ evs /\ well_scoped evs = true.
Proof.
  intros Hu. unfold after. destruct (is_init c) eqn:Hi.
  - destruct c; try discriminate Hi. cbn [exec]. unfold no_output, bind.
    destruct (init_run cs_pin m) as (r & b0 & b1 & b2 & b3 & b4 & ->).
    cbn [snd ret bus]. eexists. split; reflexivity.
  - destruct (busy_flag_bit m) as (r0 & r1 & _ & Hafter).
    destruct (own_transaction c m Hi)
      as [[_ ->]|[_ (a & evs & -> & _ & _ & _ & _ & _ & Hw)]].
    + rewrite Hafter. cbn [snd bus]. eexists. split; reflexivity.
    + rewrite Hu in Hw. cbn [snd bus]. unfold gate.
      destruct (busy_gated c).
      * rewrite Hafter. cbn [bus]. rewrite <- app_assoc.
        eexists. split; [reflexivity|].
        apply well_scoped_app; [reflexivity | exact Hw].
      * eexists. split; [reflexivity | exact Hw].
Qed.

(** C3 (the code at the failing operation).  [readUniqueId] selects the
    chip, moves 13 bytes and returns: everything it logs after [_select()]
    is a transfer, so chip select is never raised and the transaction never
    closed, and the log fragment breaks the discipline. *)
Theorem readUniqueId_never_releases m :
  exists evs,
    readUniqueId m =
    ((W25Q64_OK, skipn 5 (miso_bytes evs)),
     mkMachine (self m) (bus m ++ select_events (self m) ++ evs)) /\
    mosi_bytes evs = W25Q64_READ_UNIQUE_ID :: repeat 0 12 /\
    forallb is_transfer evs = true /\
    existsb is_cs_high (select_events (self m) ++ evs) = false /\
    existsb is_end_transaction (select_events (self m) ++ evs) = false /\
    well_scoped (select_events (self m) ++ evs) = false.
Proof.
  assert (H : sat readUniqueId m (fun a e => exists evs,
            e = select_events (self m) ++ evs /\
            a = (W25Q64_OK, skipn 5 (miso_bytes evs)) /\
            mosi_bytes evs = W25Q64_READ_UNIQUE_ID :: repeat 0 12 /\
            forallb is_transfer evs = true /\
            existsb is_cs_high e = false /\
            existsb is_end_transaction e = false /\
            well_scoped e = false)).
  { unfold readUniqueId, for_loop. cbn [for_loop_from read_loop]. wp.
    eexists. split; [reflexivity|]. cbn. repeat split; reflexivity. }
  destruct H as (a & e & He & evs & -> & -> & H).
  exists evs. split; [exact He | exact H].
Qed.

(** ** The clock of the sequential read *)

(** Past the busy check, [readData] opens its transaction with the object's
    settings and at once calls [SPI.beginTransaction] again with
    [read_data_settings]; the object's settings are not touched. *)
Lemma readData_reconfigures addr len m :
  busy_flag m = false ->
  exists rest,
    bus (after (c_readData addr len) m) =
    bus (after_busy m)
    ++ select_events (self m)
    ++ EBeginTransaction read_data_settings :: rest /\
    _spi_settings (self (after (c_readData addr len) m))
    = _spi_settings (self m).
Proof.
  intros Hb. unfold after. cbn [exec]. unfold readData.
  rewrite gate_run, Hb.
  match goal with
  | |- context [snd (?body (after_busy m))] =>
      assert (H : sat body (after_busy m) (fun _ e => exists rest,
                e = select_events (self m)
                    ++ EBeginTransaction read_data_settings :: rest))
  end.
  { wp. rewrite after_busy_self. eexists. reflexivity. }
  destruct H as (a & e & He & rest & ->). exists rest.
  unfold emits in He. rewrite He. cbn [snd bus self].
  rewrite after_busy_self. split; reflexivity.
Qed.

(** No operation changes the bus settings held by the object, so the next
    [_select()] opens its transaction with the same settings again. *)
Lemma spi_settings_kept c m :
  _spi_settings (self (after c m)) = _spi_settings (self m).
Proof.
  unfold after. destruct (is_init c) eqn:Hi.
  - destruct c; try discriminate Hi. cbn [exec]. unfold no_output, bind.
    destruct (init_run cs_pin m) as (r & b0 & b1 & b2 & b3 & b4 & ->).
    reflexivity.
  - destruct (own_transaction c m Hi) as [[_ ->]|[_ (a & evs & -> & _)]].
    + cbn [snd]. rewrite after_busy_self. reflexivity.
    + reflexivity.
Qed.

(** C6 (the code).  Rejected by the busy check, [readData] stops there.
    Otherwise it does reconfigure the transaction it has just opened, and
    for that transaction only: the object's settings, which the next
    [_select()] will use, stay as they were.  But the clock it asks for is
    the default clock, 50 MHz, not a lower one. *)
Theorem readData_clock_not_lowered addr len m :
  (if busy_flag m
   then after (c_readData addr len) m = after_busy m
   else exists rest,
       bus (after (c_readData addr len) m)
       = bus (after_busy m)
         ++ select_events (self m)
         ++ EBeginTransaction read_data_settings :: rest) /\
  _spi_settings (self (after (c_readData addr len) m))
  = _spi_settings (self m) /\
  clock read_data_settings = clock default_spi_settings /\
  ~ clock read_data_settings < clock default_spi_settings.
Proof.
  split; [|split; [apply spi_settings_kept|]].
  - destruct (busy_flag m) eqn:Hb.
    + unfold after.
      rewrite (gated_busy (c_readData addr len) m eq_refl Hb). reflexivity.
    + destruct (readData_reconfigures addr len m Hb) as (rest & H & _).
      exists rest. exact H.
  - split; [reflexivity|]. cbv. discriminate.
Qed.

(** ** What the driver contributes to a program-then-read round trip *)

Lemma miso_mosi_length evs : length (miso_bytes evs) = length (mosi_bytes evs).
Proof.
  induction evs as [|[] evs IH]; cbn; try exact IH; try reflexivity.
  rewrite IH. reflexivity.
Qed.

(** Past their busy checks, [pageProgram] sends the page-program opcode, the
    address bytes and the [len] buffer bytes unchanged and in order, and
    [readData] sends the read opcode, the same address bytes and [len]
    zeros, and stores the [len] bytes the slave answers to those zeros,
    unchanged and in order.  What the slave answers is the chip's matter. *)
Lemma program_and_read_frames addr buff len m1 m2 :
  busy_flag m1 = false -> busy_flag m2 = false ->
  exists wr rd,
    bus (after (c_pageProgram addr buff len) m1)
    = bus (after_busy m1) ++ wr /\
    mosi_bytes wr
    = W25Q64_PAGE_PROGRAM :: address_bytes addr ++ buffer_bytes buff len /\
    bus (after (c_readData addr len) m2) = bus (after_busy m2) ++ rd /\
    mosi_bytes rd = W25Q64_READ_DATA :: address_bytes addr ++ repeat 0 len /\
    stored_by (c_readData addr len) m2 = skipn 4 (miso_bytes rd) /\
    length (stored_by (c_readData addr len) m2) = len.
Proof.
  intros H1 H2.
  destruct (gated_idle (c_pageProgram addr buff len) m1 eq_refl H1)
    as (a1 & wr & E1 & _ & _ & S1 & _).
  destruct (gated_idle (c_readData addr len) m2 eq_refl H2)
    as (a2 & rd & E2 & _ & _ & S2 & K2 & _).
  exists wr, rd. unfold after, stored_by. rewrite E1, E2. cbn [fst snd bus].
  repeat split; try assumption.
  rewrite K2. cbn [kept]. rewrite length_skipn, miso_mosi_length, S2.
  unfold sent. cbn [address trailer address_bytes app length].
  rewrite repeat_length. lia.
Qed.

(** ** Commands without address or payload *)

(** X1.  A one-opcode command (write enable, volatile write enable, write
    disable, release power-down, suspend, resume, power-down, enable reset,
    reset device) has no busy check: in any state of the chip it returns OK
    and its whole bus activity is one transaction carrying the opcode. *)
Theorem simple_command_frame c m :
  simple_command c = true ->
  exists r,
    exec c m =
    ((W25Q64_OK, []),
     mkMachine (self m)
       (bus m ++ select_events (self m)
              ++ [ETransfer (opcode c) r]
              ++ release_events (self m))).
Proof.
  intros Hs.
  assert (H : sat (exec c) m (fun a e => exists r,
            a = (W25Q64_OK, []) /\
            e = select_events (self m) ++ [ETransfer (opcode c) r]
                ++ release_events (self m))).
  { destruct c; try discriminate Hs; cbn [exec opcode];
      unfold no_output, writeEnable, volatileWriteEnable, writeDisable,
        releasePowerDown, eraseProgramSuspend, eraseProgramResume, powerDown,
        enableReset, resetDevice;
      wp; eexists; (split; [reflexivity|]);
      rewrite ?app_nil_r; reflexivity. }
  destruct H as (a & e & He & r & -> & ->). exists r. exact He.
Qed.

(** ** Identification *)

(** X2.  [readJedecId] has no busy check and no dummy bytes: it sends 0x9F
    and three zeros in one transaction and hands back the three answers to
    the zeros, in order, as manufacturer id, memory type and capacity. *)
Theorem readJedecId_frame m :
  exists r manufacturer_id memory_type capacity,
    readJedecId m =
    ((W25Q64_OK, manufacturer_id, memory_type, capacity),
     mkMachine (self m)
       (bus m ++ select_events (self m)
              ++ [ETransfer W25Q64_JEDEC_ID r; ETransfer 0 manufacturer_id;
                  ETransfer 0 memory_type; ETransfer 0 capacity]
              ++ release_events (self m))).
Proof.
  assert (H : sat readJedecId m (fun a e => exists r b0 b1 b2,
            a = (W25Q64_OK, b0, b1, b2) /\
            e = select_events (self m)
                ++ [ETransfer W25Q64_JEDEC_ID r; ETransfer 0 b0;
                    ETransfer 0 b1; ETransfer 0 b2]
                ++ release_events (self m))).
  { unfold readJedecId. wp. do 4 eexists. split; reflexivity. }
  destruct H as (a & e & He & r & b0 & b1 & b2 & -> & ->).
  exists r, b0, b1, b2. exact He.
Qed.

(** ** Reads behind the busy check *)

Lemma gated_read_address c :
  gated_read c = true -> exists addr, address c = Some addr.
Proof. destruct c; intros H; try discriminate H; eexists; reflexivity. Qed.

(** X3.  On an idle chip a data, fast, SFDP or security-register read sends
    its opcode, the three address bytes, one dummy zero (none for
    [readData]) and [len] zeros, and stores exactly the [len] bytes the
    slave answers to those last zeros, in order; nothing is stored of what
    comes in during opcode, address and dummy byte.  With [len = 0] the
    command and address still go out and nothing is stored. *)
Theorem gated_read_returns_answers c addr m :
  gated_read c = true -> address c = Some addr -> busy_flag m = false ->
  exists evs,
    exec c m =
    ((W25Q64_OK, skipn (4 + dummy_bytes c) (miso_bytes evs)),
     mkMachine (self m) (bus (after_busy m) ++ evs)) /\
    mosi_bytes evs =
    opcode c :: address_bytes addr
    ++ repeat 0 (dummy_bytes c + length_argument c) /\
    length (skipn (4 + dummy_bytes c) (miso_bytes evs)) = length_argument c.
Proof.
  intros Hr Ha Hb.
  destruct (gated_idle c m (gated_read_gated c Hr) Hb)
    as ([st out] & evs & He & Hok & _ & Hsent & Hkept & _).
  cbn [fst snd] in Hok, Hkept. subst st.
  assert (Hs : mosi_bytes evs =
               opcode c :: address_bytes addr
               ++ repeat 0 (dummy_bytes c + length_argument c)).
  { rewrite Hsent. unfold sent. rewrite Ha.
    destruct c; try discriminate Hr; reflexivity. }
  assert (Hk : out = skipn (4 + dummy_bytes c) (miso_bytes evs)).
  { rewrite Hkept. destruct c; try discriminate Hr; reflexivity. }
  exists evs. rewrite He, Hk. repeat split; [exact Hs|].
  rewrite length_skipn, miso_mosi_length, Hs.
  cbn [length address_bytes app]. rewrite repeat_length. lia.
Qed.

(** ** Mutating operations without an address *)

Lemma unaddressed_gated c p :
  unaddressed_payload c = Some p -> busy_gated c = true.
Proof. destruct c; intros H; try discriminate H; reflexivity. Qed.

(** X4.  On an idle chip [chipErase] sends its opcode alone and a
    status-register write sends its opcode followed by the register value
    as given; each in one transaction of its own after the busy check,
    closed before OK is returned. *)
Theorem unaddressed_mutating_frame c p m :
  unaddressed_payload c = Some p -> busy_flag m = false ->
  exists evs,
    exec c m =
    ((W25Q64_OK, []), mkMachine (self m) (bus (after_busy m) ++ evs)) /\
    mosi_bytes evs = opcode c :: p /\
    selects evs = 1%nat /\
    well_scoped evs = true.
Proof.
  intros Hp Hb.
  destruct (gated_idle c m (unaddressed_gated c p Hp) Hb)
    as ([st out] & evs & He & Hok & _ & Hsent & Hkept & Hsel & Hw).
  cbn [fst snd] in Hok, Hkept. subst st.
  exists evs. rewrite He.
  destruct c; try discriminate Hp; injection Hp as <-;
    cbn [kept] in Hkept; subst out; repeat split; assumption.
Qed.

(** ** The object's fields *)

(** X5.  Only [init] assigns to the object's fields: after any other
    operation, completed or rejected, the chip-select pin, the bus settings
    and the stored status are what they were. *)
Theorem fields_only_set_by_init c m :
  is_init c = false -> self (after c m) = self m.
Proof.
  intros Hi. unfold after.
  destruct (own_transaction c m Hi) as [[_ ->]|[_ (a & evs & -> & _)]].
  - cbn [snd]. apply after_busy_self.
  - reflexivity.
Qed.

(** ** Status codes *)

(** X6.  Which operation can return which code.  [init] has no busy check
    and returns OK or one of the two identity errors, never BUSY.  Every
    other operation returns BUSY when it has a busy check and the flag is
    set, and OK otherwise: no argument value (address beyond
    [W25Q64_MAX_ADDRESS], unaligned erase address, length over a page) is
    ever rejected. *)
Theorem status_taxonomy c m :
  if is_init c
  then status_of c m = W25Q64_OK
       \/ status_of c m = W25Q64_UNKOWN_MANUFACTURER_ID
       \/ status_of c m = W25Q64_UNKOWN_DEVICE_ID
  else status_of c m =
       if busy_gated c && busy_flag m then W25Q64_BUSY else W25Q64_OK.
Proof.
  destruct (is_init c) eqn:Hi.
  - destruct c; try discriminate Hi. unfold status_of. cbn [exec].
    unfold no_output, bind.
    destruct (init_run cs_pin m) as (r & b0 & b1 & b2 & b3 & b4 & ->).
    cbn [fst ret].
    destruct (negb (b3 =? 0xEF)); [auto|].
    destruct (negb (b4 =? 0x16)); auto.
  - unfold status_of.
    destruct (own_transaction c m Hi)
      as [[-> ->]|[-> (a & evs & -> & Hok & _)]]; [reflexivity | exact Hok].
Qed.

(** ** The busy flag *)

Lemma land_1_odd r : negb (Z.land r 1 =? 0) = Z.odd r.
Proof.
  change 1 with (Z.ones 1). rewrite Z.land_ones by lia.
  change (2 ^ 1) with 2. rewrite Zmod_odd. destruct (Z.odd r); reflexivity.
Qed.

(** X7.  [busy] is one status-register-1 read that leaves the fields
    alone, and its answer is bit 0 of the byte read and nothing else: it is
    true exactly when that byte is odd, whatever the other seven bits of
    the register (write-enable latch, protection bits) are. *)
Theorem busy_is_bit_0 m :
  exists r0 r1,
    busy m = (Z.odd r1,
              mkMachine (self m)
                        (bus m ++ status_read_events (self m) r0 r1)).
Proof.
  destruct (busy_run m) as (r0 & r1 & H). exists r0, r1.
  rewrite <- land_1_odd. exact H.
Qed.

(** ** Sequences of operations *)

(** X8.  Any sequence of calls that does not contain [readUniqueId] keeps
    the transaction discipline: in all it appends to the log chip select
    goes low only when released, bytes move only inside an open transaction
    of the selected chip, and at the end the chip is released and no
    transaction is open, whether calls were rejected as busy or not. *)
Theorem sequence_well_scoped cs : forall m,
  forallb (fun c => negb (is_readUniqueId c)) cs = true ->
  exists evs, bus (run_all cs m) = bus m ++ evs /\ well_scoped evs = true.
Proof.
  induction cs as [|c cs IH]; intros m H; cbn [run_all].
  - exists []. rewrite app_nil_r. split; reflexivity.
  - cbn [forallb] in H. apply andb_true_iff in H as [Hc Hcs].
    apply negb_true_iff in Hc.
    destruct (other_operations_release c m Hc) as (e1 & E1 & W1).
    destruct (IH (after c m) Hcs) as (e2 & E2 & W2).
    exists (e1 ++ e2). rewrite E2, E1, app_assoc.
    split; [reflexivity | apply well_scoped_app; assumption].
Qed.

Lemma readUniqueId_shape m :
  exists xfers,
    after c_readUniqueId m =
    mkMachine (self m) (bus m ++ select_events (self m) ++ xfers) /\
    forallb is_transfer xfers = true /\
    length xfers = 13%nat /\
    scope_run (false, false) (select_events (self m) ++ xfers)
    = Some (true, true).
Proof.
  assert (H : sat readUniqueId m (fun _ e => exists xfers,
            e = select_events (self m) ++ xfers /\
            forallb is_transfer xfers = true /\
            length xfers = 13%nat /\
            scope_run (false, false) e = Some (true, true))).
  { unfold readUniqueId, for_loop. cbn [for_loop_from read_loop]. wp.
    eexists. split; [reflexivity|]. cbn. repeat split; reflexivity. }
  destruct H as (a & e & He & xfers & -> & Ht & Hl & Hs).
  exists xfers. unfold after. cbn [exec]. rewrite He.
  repeat split; assumption.
Qed.

Lemma scope_run_selected_select o rest :
  scope_run (true, true) (select_events o ++ rest) = None.
Proof. reflexivity. Qed.

(** X9.  [readUniqueId] returns with the chip still selected, so whatever
    operation other than [init] is called next pulls chip select low a
    second time with no release in between (the busy check does so for the
    operations that have one): the log of the two calls is the [_select()]
    of [readUniqueId], its 13 transfers and nothing else, then at once the
    [_select()] of the next call; it breaks the transaction discipline at
    that point. *)
Theorem call_after_readUniqueId c m :
  is_init c = false ->
  exists xfers rest,
    bus (after c (after c_readUniqueId m))
    = bus m ++ select_events (self m) ++ xfers
            ++ select_events (self m) ++ rest /\
    forallb is_transfer xfers = true /\
    length xfers = 13%nat /\
    scope_run (false, false) (select_events (self m) ++ xfers)
    = Some (true, true) /\
    well_scoped (select_events (self m) ++ xfers
                 ++ select_events (self m) ++ rest) = false.
Proof.
  intros Hi. destruct (readUniqueId_shape m) as (xfers & E1 & Ht & Hl & S1).
  set (m1 := after c_readUniqueId m) in *.
  assert (Hself : self m1 = self m) by (rewrite E1; reflexivity).
  assert (Hbus : bus m1 = bus m ++ select_events (self m) ++ xfers)
    by (rewrite E1; reflexivity).
  assert (H : exists rest,
             bus (after c m1) = bus m1 ++ select_events (self m1) ++ rest).
  { unfold after. destruct (busy_flag_bit m1) as (r0 & r1 & _ & Hafter).
    destruct (own_transaction c m1 Hi)
      as [[_ ->]|[_ (a & evs & -> & _ & (rest & ->) & _)]].
    - rewrite Hafter. cbn [snd bus]. unfold status_read_events.
      eexists. reflexivity.
    - cbn [snd bus]. unfold gate. destruct (busy_gated c).
      + rewrite Hafter. cbn [bus]. unfold status_read_events.
        rewrite <- !app_assoc. eexists. reflexivity.
      + eexists. reflexivity. }
  destruct H as (rest & E2). rewrite Hself in E2.
  exists xfers, rest.
  rewrite E2, Hbus, <- !app_assoc. repeat split; try assumption.
  unfold well_scoped.
  rewrite (app_assoc (select_events (self m)) xfers), scope_run_app, S1,
    scope_run_selected_select.
  reflexivity.
Qed.

(** ** The programming buffer *)

Lemma write_loop_prefix len : forall buff buff' m,
  (forall i, (i < len)%nat -> buff i = buff' i) ->
  write_loop buff len m = write_loop buff' len m.
Proof.
  induction len as [|len IH]; intros buff buff' m H; cbn [write_loop].
  - reflexivity.
  - unfold bind. rewrite (H O) by lia.
    destruct (SPI_transfer (buff' O) m) as [r m1].
    apply IH. intros i Hi. apply H. lia.
Qed.

(** X10.  [pageProgram] and [programSecurityRegister] read their buffer at
    offsets 0 to [len - 1] and nowhere else: two calls whose buffers agree
    on these offsets return the same status and leave the same log.  With
    [len = 0] the buffer is not read at all. *)
Theorem program_reads_len_bytes c buff' m :
  agrees_with_buffer c buff' ->
  exec (with_buffer c buff') m = exec c m.
Proof.
  intros H. destruct c; try reflexivity;
    cbn [agrees_with_buffer with_buffer exec] in *;
    unfold no_output, pageProgram, programSecurityRegister;
    rewrite !gate_run_bind; destruct (busy_flag m); try reflexivity;
    unfold bind;
    destruct (_select (after_busy m)) as [u1 m1];
    destruct (SPI_transfer _ m1) as [u2 m2];
    destruct (send_address addr m2) as [u3 m3];
    rewrite (write_loop_prefix _ buff buff' m3 H); reflexivity.
Qed.

(** ** The address bytes as a code *)

Lemma address_bytes_injective a a' :
  0 <= a < 2 ^ 24 -> 0 <= a' < 2 ^ 24 ->
  address_bytes a = address_bytes a' -> a = a'.
Proof.
  intros Ha Ha' H.
  pose proof (address_bytes_value a) as V.
  pose proof (address_bytes_value a') as V'.
  unfold address_bytes in H. injection H as H2 H1 H0.
  rewrite H2, H1, H0, V' in V.
  rewrite (Z.mod_small a'), (Z.mod_small a) in V by assumption.
  symmetry. exact V.
Qed.

(** X11.  On an idle chip the bytes an addressed operation sends determine
    the operation's opcode and, within 24 bits, its address: two calls with
    addresses below 2^24 that put the same bytes on the bus have the same
    opcode and the same address. *)
Theorem frame_determines_address c c' a a' m m' :
  address c = Some a -> address c' = Some a' ->
  0 <= a < 2 ^ 24 -> 0 <= a' < 2 ^ 24 ->
  busy_flag m = false -> busy_flag m' = false ->
  exists evs evs',
    bus (after c m) = bus (after_busy m) ++ evs /\
    bus (after c' m') = bus (after_busy m') ++ evs' /\
    (mosi_bytes evs = mosi_bytes evs' -> opcode c = opcode c' /\ a = a').
Proof.
  intros Hc Hc' Ha Ha' Hb Hb'.
  destruct (gated_idle c m (address_gated c a Hc) Hb)
    as (r & evs & E & _ & _ & S & _).
  destruct (gated_idle c' m' (address_gated c' a' Hc') Hb')
    as (r' & evs' & E' & _ & _ & S' & _).
  exists evs, evs'. unfold after. rewrite E, E'. cbn [snd bus].
  repeat split; try reflexivity.
  - rewrite S, S' in H. unfold sent in H. congruence.
  - rewrite S, S' in H. unfold sent in H. rewrite Hc, Hc' in H.
    injection H as _ H2 H1 H0 _.
    apply address_bytes_injective; try assumption.
    unfold address_bytes. congruence.
Qed.

(** ** Ownership of pins and settings *)

Lemma own_event_reads o vs : Forall (own_event o) (map (ETransfer 0) vs).
Proof. induction vs; cbn; constructor; [exact I | assumption]. Qed.

Lemma own_event_transfers o outs ins :
  Forall (own_event o) (transfers outs ins).
Proof.
  unfold transfers. revert ins.
  induction outs as [|x outs IH]; intros [|i ins]; cbn;
    constructor; [exact I | apply IH].
Qed.

Ltac own_simpl :=
  rewrite ?after_busy_self;
  repeat first
    [ apply Forall_nil
    | apply Forall_app; split
    | apply own_event_reads
    | apply own_event_transfers
    | apply Forall_cons; [cbn [own_event]; auto |] ].

Lemma status_read_own o r0 r1 :
  Forall (own_event o) (status_read_events o r0 r1).
Proof.
  unfold status_read_events, select_events, release_events. cbn [app].
  repeat (apply Forall_cons; [cbn [own_event]; auto |]). apply Forall_nil.
Qed.

(** X12.  An operation other than [init] drives no pin but the object's
    chip-select pin, never changes a pin mode or restarts the bus, and
    opens transactions only with the settings held by the object (or, in
    [readData], the ones built from the read-data constants). *)
Theorem operations_touch_own_pin c m :
  is_init c = false ->
  exists evs,
    bus (after c m) = bus m ++ evs /\ Forall (own_event (self m)) evs.
Proof.
  intros Hi.
  destruct (busy_flag_bit m) as (r0 & r1 & _ & Hafter).
  assert (H : (busy_gated c && busy_flag m = true
               /\ after c m = after_busy m)
              \/ exists evs,
                bus (after c m) = bus (gate c m) ++ evs
                /\ Forall (own_event (self m)) evs).
  { unfold after.
    destruct c; try discriminate Hi; clear Hi;
    unfold gate; cbn [busy_gated mutating gated_read orb andb];
    unfold exec, no_output, reset, readData, fastRead, pageProgram,
      sectorErase, block32Erase, block64Erase, chipErase,
      writeStatusRegister1, writeStatusRegister2, writeStatusRegister3,
      readSFDPRegister, eraseSecurityRegister, programSecurityRegister,
      readSecurityRegister;
    try rewrite gate_run_bind; try rewrite gate_run;
    try (destruct (busy_flag m); [left; split; reflexivity|]);
    right;
    match goal with
    | |- exists evs, bus (snd (?body ?m0)) = _ /\ _ =>
        assert (S : sat body m0 (fun _ e => Forall (own_event (self m)) e))
    end.
    all: try (destruct S as (a & e & -> & He); exists e;
              split; [reflexivity | exact He]).
    all: unfold writeEnable, volatileWriteEnable, writeDisable,
      releasePowerDown, eraseProgramSuspend, eraseProgramResume, powerDown,
      enableReset, resetDevice, readManufacturerId, readJedecId,
      readUniqueId, readStatusRegister1, readStatusRegister2,
      readStatusRegister3, for_loop; cbn [for_loop_from read_loop].
    all: wp.
    all: unfold select_events, release_events; own_simpl. }
  destruct H as [[_ ->]|(evs & E & F)].
  - rewrite Hafter. cbn [bus]. eexists. split; [reflexivity|].
    apply status_read_own.
  - unfold gate in E. destruct (busy_gated c).
    + rewrite E, Hafter. cbn [bus]. rewrite <- app_assoc.
      eexists. split; [reflexivity|].
      apply Forall_app. split; [apply status_read_own | exact F].
    + exists evs. split; assumption.
Qed.

(** ** The opcode table *)

(** X13.  The 29 opcodes of the header are pairwise different and each
    fits in a byte, and the first byte an operation sends in its own
    transaction (that is, unless its busy check rejects it) is its entry of
    that table. *)
Theorem opcode_table_distinct :
  NoDup opcode_table /\
  Forall (fun op => 0 <= op < 256) opcode_table /\
  forall c m,
    if busy_gated c && busy_flag m
    then exec c m = ((W25Q64_BUSY, []), after_busy m)
    else exists evs rest,
        bus (after c m) = bus (gate c m) ++ evs /\
        mosi_bytes evs = opcode c :: rest /\
        In (opcode c) opcode_table.
Proof.
  split; [|split].
  - unfold opcode_table.
    repeat (apply NoDup_cons; [cbv; intuition discriminate|]).
    apply NoDup_nil.
  - unfold opcode_table.
    repeat (apply Forall_cons; [cbv; intuition discriminate|]).
    apply Forall_nil.
  - intros c m. destruct (is_init c) eqn:Hi.
    + destruct c; try discriminate Hi.
      cbn [busy_gated mutating gated_read orb andb]. unfold gate, after.
      cbn [busy_gated mutating gated_read orb exec].
      unfold no_output, bind.
      destruct (init_run cs_pin m) as (r & b0 & b1 & b2 & b3 & b4 & ->).
      cbn [snd ret bus]. do 2 eexists.
      split; [reflexivity|]. split; [reflexivity|]. cbv. tauto.
    + destruct (own_transaction c m Hi)
        as [[-> E]|[-> (a & evs & E & _ & _ & S & _)]].
      * exact E.
      * exists evs. eexists. unfold after. rewrite E. cbn [snd bus].
        split; [reflexivity|]. split; [rewrite S; reflexivity|].
        destruct c; cbv; tauto.
Qed.

(** ** The stored status *)

Lemma ignores_ret {A} (a : A) : ignores_status (ret a).
Proof. intros m m' H. split; [reflexivity | exact H]. Qed.

Lemma ignores_bind {A B} (c : M A) (k : A -> M B) :
  ignores_status c -> (forall a, ignores_status (k a)) ->
  ignores_status (bind c k).
Proof.
  intros Hc Hk m m' H. unfold bind.
  destruct (Hc m m' H) as [Ha Hm].
  destruct (c m) as [a m1], (c m') as [a' m1']. cbn [fst snd] in *. subst a'.
  apply Hk, Hm.
Qed.

Lemma ignores_log e : ignores_status (log e).
Proof.
  intros m m' (Hb & Hp & Hs). unfold log, same_but_status. cbn.
  rewrite Hb. auto.
Qed.

Lemma ignores_transfer d : ignores_status (SPI_transfer d).
Proof.
  intros m m' (Hb & Hp & Hs). unfold SPI_transfer, same_but_status. cbn.
  rewrite Hb. auto.
Qed.

Lemma ignores_select : ignores_status _select.
Proof.
  intros m m' (Hb & Hp & Hs).
  unfold _select, bind, this, digitalWrite, SPI_beginTransaction, log,
    same_but_status.
  cbn. rewrite Hb, Hp, Hs. auto.
Qed.

Lemma ignores_release : ignores_status _release.
Proof.
  intros m m' (Hb & Hp & Hs).
  unfold _release, bind, this, digitalWrite, SPI_endTransaction, log,
    same_but_status.
  cbn. rewrite Hb, Hp. auto.
Qed.

Lemma ignores_for_loop_from body n :
  (forall i, ignores_status (body i)) ->
  forall i, ignores_status (for_loop_from i n body).
Proof.
  intros Hb. induction n as [|n IH]; intros i; cbn [for_loop_from].
  - apply ignores_ret.
  - apply ignores_bind; [apply Hb | intros _; apply IH].
Qed.

Lemma ignores_read_loop len : ignores_status (read_loop len).
Proof.
  induction len as [|len IH]; cbn [read_loop].
  - apply ignores_ret.
  - apply ignores_bind; [apply ignores_transfer | intros v].
    apply ignores_bind; [exact IH | intros rest; apply ignores_ret].
Qed.

Lemma ignores_write_loop len : forall buff,
  ignores_status (write_loop buff len).
Proof.
  induction len as [|len IH]; intros buff; cbn [write_loop].
  - apply ignores_ret.
  - apply ignores_bind; [apply ignores_transfer | intros _; apply IH].
Qed.

Lemma ignores_set_status st : ignores_status (set__status st).
Proof.
  intros m m' (Hb & Hp & Hs). unfold set__status, same_but_status. cbn. auto.
Qed.

Ltac ignores_step :=
  lazymatch goal with
  | |- ignores_status (ret _) => apply ignores_ret
  | |- ignores_status _select => apply ignores_select
  | |- ignores_status _release => apply ignores_release
  | |- ignores_status (SPI_transfer _) => apply ignores_transfer
  | |- ignores_status (log _) => apply ignores_log
  | |- ignores_status (set__status _) => apply ignores_set_status
  | |- ignores_status (read_loop _) => apply ignores_read_loop
  | |- ignores_status (write_loop _ _) => apply ignores_write_loop
  | |- ignores_status (for_loop_from _ _ _) =>
      apply ignores_for_loop_from; intros ?
  | |- ignores_status (bind _ _) => apply ignores_bind; [|intros ?]
  | |- ignores_status (if ?b then _ else _) => destruct b
  | |- ignores_status (let (_, _) := ?p in _) => destruct p
  | |- ignores_status (match ?p with _ => _ end) => destruct p
  end.

Lemma ignores_busy : ignores_status busy.
Proof. unfold busy, readStatusRegister1. repeat ignores_step. Qed.

Ltac ignores :=
  repeat first
    [ lazymatch goal with
      | |- ignores_status busy => apply ignores_busy
      end
    | ignores_step ].

Lemma ignores_init cs_pin : ignores_status (init cs_pin).
Proof.
  assert (E : forall m,
             init cs_pin m =
             (pinMode cs_pin OUTPUT ;;
              digitalWrite cs_pin HIGH ;;
              SPI_begin ;;
              r <- readManufacturerId ;;
              let '(st, manufacturer_id, device_id) := r in
              set__status st ;;
              if negb (manufacturer_id =? 0xEF)
              then ret W25Q64_UNKOWN_MANUFACTURER_ID
              else if negb (device_id =? 0x16)
                   then ret W25Q64_UNKOWN_DEVICE_ID
                   else ret W25Q64_OK)
               (mkMachine
                  (mkW25Q64 (_spi_settings (self m)) cs_pin (_status (self m)))
                  (bus m))) by reflexivity.
  intros m m' (Hb & Hp & Hs). rewrite !E.
  match goal with
  | |- context [fst (?rest _)] => assert (I : ignores_status rest)
  end.
  { unfold pinMode, digitalWrite, SPI_begin, readManufacturerId. ignores. }
  apply I. unfold same_but_status. cbn. auto.
Qed.

(** X14.  No operation reads the [_status] field: run from two objects
    that differ at most in it, on the same log, an operation returns the
    same code, stores the same bytes and leaves the same log. *)
Theorem status_field_is_never_read c m m' :
  same_but_status m m' ->
  status_of c m = status_of c m' /\
  stored_by c m = stored_by c m' /\
  bus (after c m) = bus (after c m').
Proof.
  intros H.
  assert (I : ignores_status (exec c)).
  { destruct c; cbn [exec];
      [ unfold no_output; apply ignores_bind;
        [apply ignores_init | intros ?; apply ignores_ret] | .. ];
      unfold no_output, reset, readData, fastRead, pageProgram,
        sectorErase, block32Erase, block64Erase, chipErase,
        writeStatusRegister1, writeStatusRegister2, writeStatusRegister3,
        readSFDPRegister, eraseSecurityRegister, programSecurityRegister,
        readSecurityRegister, writeEnable, volatileWriteEnable, writeDisable,
        releasePowerDown, eraseProgramSuspend, eraseProgramResume, powerDown,
        enableReset, resetDevice, readManufacturerId, readJedecId,
        readUniqueId, readStatusRegister1, readStatusRegister2,
        readStatusRegister3, send_address, for_loop, SPI_beginTransaction;
      ignores. }
  destruct (I m m' H) as [E (Hb & _)].
  unfold status_of, stored_by, after. rewrite E. auto.
Qed.

(** ** Status-register reads *)

(** X15.  A status-register read has no busy check: in one transaction it
    sends its opcode (0x05, 0x35 or 0x15) and one zero, and stores the byte
    the slave answers to that zero, unchanged; it returns OK. *)
Theorem status_register_read_frame c m :
  status_read c = true ->
  exists r0 reg,
    exec c m =
    ((W25Q64_OK, [reg]),
     mkMachine (self m)
       (bus m ++ select_events (self m)
              ++ [ETransfer (opcode c) r0; ETransfer 0 reg]
              ++ release_events (self m))).
Proof.
  intros Hs.
  assert (H : sat (exec c) m (fun a e => exists r0 reg,
            a = (W25Q64_OK, [reg]) /\
            e = select_events (self m)
                ++ [ETransfer (opcode c) r0; ETransfer 0 reg]
                ++ release_events (self m))).
  { destruct c; try discriminate Hs; cbn [exec opcode];
      unfold readStatusRegister1, readStatusRegister2, readStatusRegister3;
      wp; do 2 eexists; (split; [reflexivity|]);
      rewrite ?app_nil_r; reflexivity. }
  destruct H as (a & e & He & r0 & reg & -> & ->). exists r0, reg. exact He.
Qed.

End Driver.

(** * Concrete runs *)

(** C9.  [readManufacturerId] sends 0x90, clocks in five bytes and hands
    back the fourth and the fifth (offsets 3 and 4) as manufacturer and
    device id, with status OK.  With a slave that answers those five
    transfers with 00 00 00 EF 16 the ids are 0xEF and 0x16. *)
Theorem readManufacturerId_offsets :
  (forall device m,
      exists r b0 b1 b2 b3 b4,
        readManufacturerId device m =
        ((W25Q64_OK, b3, b4),
         mkMachine (self m)
           (bus m ++ select_events (self m)
                  ++ [ETransfer 0x90 r; ETransfer 0 b0; ETransfer 0 b1;
                      ETransfer 0 b2; ETransfer 0 b3; ETransfer 0 b4]
                  ++ release_events (self m))))
  /\
  (forall x,
      fst (readManufacturerId
             (scripted [x; 0x00; 0x00; 0x00; 0xEF; 0x16]) power_on)
      = (W25Q64_OK, 0xEF, 0x16)).
Proof.
  split.
  - intros device m. exact (readManufacturerId_run device m).
  - intros x. reflexivity.
Qed.

(** A rejected [sectorErase], evaluated: the log holds the status read of
    the busy check and nothing of the erase itself. *)
Example busy_sectorErase_uses_the_bus :
  mutating (c_sectorErase 0) = true /\
  busy_flag (always 1) power_on = true /\
  status_of (always 1) (c_sectorErase 0) power_on = W25Q64_BUSY /\
  bus power_on = [] /\
  bus (after (always 1) (c_sectorErase 0) power_on)
  = [EDigitalWrite 10 LOW; EBeginTransaction default_spi_settings;
     ETransfer 0x05 1; ETransfer 0 1;
     EDigitalWrite 10 HIGH; EEndTransaction] /\
  bus (after (always 1) (c_sectorErase 0) power_on) <> bus power_on.
Proof. repeat split. discriminate. Qed.

Lemma busy_rejects_mutating_witness :
  status_of (always 1) (c_sectorErase 0) power_on = W25Q64_BUSY /\
  exists r0 r1,
    Z.land r1 1 <> 0 /\
    after (always 1) (c_sectorErase 0) power_on =
    mkMachine (self power_on)
              (bus power_on ++ status_read_events (self power_on) r0 r1) /\
    mosi_bytes (status_read_events (self power_on) r0 r1)
    = [W25Q64_READ_STATUS_REGISTER_1; 0] /\
    ~ In (opcode (c_sectorErase 0)) [W25Q64_READ_STATUS_REGISTER_1; 0].
Proof.
  apply (busy_rejects_mutating (always 1) (c_sectorErase 0) power_on);
    reflexivity.
Defined.

(** C2, the claim as written fails: [readData] on a busy chip performs the
    busy check and returns BUSY without reading anything. *)
Lemma busy_readData_returns_BUSY :
  read_only (c_readData 0 1) = true /\
  busy_flag (always 1) power_on = true /\
  exec (always 1) (c_readData 0 1) power_on =
  ((W25Q64_BUSY, []),
   mkMachine (self power_on)
     [EDigitalWrite 10 LOW; EBeginTransaction default_spi_settings;
      ETransfer 0x05 1; ETransfer 0 1;
      EDigitalWrite 10 HIGH; EEndTransaction]).
Proof. repeat split. Qed.

Lemma read_only_busy_behaviour_witness :
  (ungated_read c_readJedecId = true /\
   status_of (always 1) c_readJedecId power_on = W25Q64_OK /\
   exists rest k,
     bus (after (always 1) c_readJedecId power_on)
     = bus power_on ++ select_events (self power_on) ++ rest /\
     mosi_bytes (select_events (self power_on) ++ rest)
     = opcode c_readJedecId :: repeat 0 k /\
     selects (select_events (self power_on) ++ rest) = 1%nat)
  \/
  (gated_read c_readJedecId = true /\
   (status_of (always 1) c_readJedecId power_on = W25Q64_BUSY <->
    busy_flag (always 1) power_on = true) /\
   (busy_flag (always 1) power_on = true ->
    after (always 1) c_readJedecId power_on = after_busy (always 1) power_on)
   /\
   exists evs,
     bus (after (always 1) c_readJedecId power_on)
     = bus (after_busy (always 1) power_on) ++ evs).
Proof.
  apply (read_only_busy_behaviour (always 1) c_readJedecId power_on).
  reflexivity.
Defined.

Lemma busy_rejection_footprint_witness :
  exists r0 r1,
    bus (after (always 1) (c_readData 0 4) power_on)
    = bus power_on ++ status_read_events (self power_on) r0 r1 /\
    status_read_events (self power_on) r0 r1
    = [EDigitalWrite (_cs_pin (self power_on)) LOW;
       EBeginTransaction (_spi_settings (self power_on));
       ETransfer 0x05 r0; ETransfer 0 r1;
       EDigitalWrite (_cs_pin (self power_on)) HIGH; EEndTransaction] /\
    stored_by (always 1) (c_readData 0 4) power_on = [] /\
    self (after (always 1) (c_readData 0 4) power_on) = self power_on.
Proof.
  apply (busy_rejection_footprint (always 1) (c_readData 0 4) power_on);
    reflexivity.
Defined.

Lemma address_framing_witness :
  let c := c_sectorErase 0xAB123456 in
  exec (always 0) (at_address c (0xAB123456 mod 2 ^ 24)) power_on
  = exec (always 0) c power_on /\
  if busy_flag (always 0) power_on
  then status_of (always 0) c power_on = W25Q64_BUSY /\
       after (always 0) c power_on = after_busy (always 0) power_on
  else
    status_of (always 0) c power_on = W25Q64_OK /\
    exists b2 b1 b0 evs,
      bus (after (always 0) c power_on)
      = bus (after_busy (always 0) power_on) ++ evs /\
      mosi_bytes evs = opcode c :: b2 :: b1 :: b0 :: trailer c /\
      (b2 = byte_cast (Z.shiftr 0xAB123456 16) /\
       b1 = byte_cast (Z.shiftr 0xAB123456 8) /\
       b0 = byte_cast 0xAB123456) /\
      (0 <= b2 < 256 /\ 0 <= b1 < 256 /\ 0 <= b0 < 256) /\
      b2 * 65536 + b1 * 256 + b0 = 0xAB123456 mod 2 ^ 24.
Proof.
  apply (address_framing (always 0) (c_sectorErase 0xAB123456) 0xAB123456
                         power_on).
  reflexivity.
Defined.

(** The address bytes of the witness above, evaluated. *)
Example sectorErase_sends_low_24_bits :
  mosi_bytes (bus (after (always 0) (c_sectorErase 0xAB123456) power_on))
  = [0x05; 0x00; 0x20; 0x12; 0x34; 0x56].
Proof. reflexivity. Qed.

(** C3 at a concrete call: after [readUniqueId] the last event is a
    transfer and chip select was last written LOW. *)
Example readUniqueId_log :
  bus (after (always 0) c_readUniqueId power_on)
  = [EDigitalWrite 10 LOW; EBeginTransaction default_spi_settings;
     ETransfer 0x4B 0]
    ++ repeat (ETransfer 0 0) 12.
Proof. reflexivity. Qed.

(** The log of a sequential read of one byte from an idle chip: the
    transaction opened by [_select()] is reconfigured before the opcode
    goes out, with the same 50 MHz. *)
Example readData_log :
  bus (after (always 0) (c_readData 0 1) power_on)
  = [EDigitalWrite 10 LOW; EBeginTransaction default_spi_settings;
     ETransfer 0x05 0; ETransfer 0 0;
     EDigitalWrite 10 HIGH; EEndTransaction;
     EDigitalWrite 10 LOW; EBeginTransaction default_spi_settings;
     EBeginTransaction read_data_settings;
     ETransfer 0x03 0; ETransfer 0 0; ETransfer 0 0; ETransfer 0 0;
     ETransfer 0 0;
     EDigitalWrite 10 HIGH; EEndTransaction] /\
  clock read_data_settings = 50000000 /\
  clock default_spi_settings = 50000000.
Proof. repeat split. Qed.

(** * Concrete runs of the further properties *)

Lemma simple_command_frame_witness :
  exists r,
    exec (always 1) c_eraseProgramSuspend power_on =
    ((W25Q64_OK, []),
     mkMachine (self power_on)
       (bus power_on ++ select_events (self power_on)
                     ++ [ETransfer (opcode c_eraseProgramSuspend) r]
                     ++ release_events (self power_on))).
Proof.
  apply (simple_command_frame (always 1) c_eraseProgramSuspend power_on).
  reflexivity.
Defined.

Lemma gated_read_returns_answers_witness :
  exists evs,
    exec (scripted [0; 0; 7; 7; 7; 7; 7; 0x11; 0x22]) (c_fastRead 0x010203 2)
         power_on =
    ((W25Q64_OK,
      skipn (4 + dummy_bytes (c_fastRead 0x010203 2)) (miso_bytes evs)),
     mkMachine (self power_on)
       (bus (after_busy (scripted [0; 0; 7; 7; 7; 7; 7; 0x11; 0x22])
                        power_on) ++ evs)) /\
    mosi_bytes evs =
    opcode (c_fastRead 0x010203 2) :: address_bytes 0x010203
    ++ repeat 0 (dummy_bytes (c_fastRead 0x010203 2)
                 + length_argument (c_fastRead 0x010203 2)) /\
    length (skipn (4 + dummy_bytes (c_fastRead 0x010203 2)) (miso_bytes evs))
    = length_argument (c_fastRead 0x010203 2).
Proof.
  apply (gated_read_returns_answers
           (scripted [0; 0; 7; 7; 7; 7; 7; 0x11; 0x22])
           (c_fastRead 0x010203 2) 0x010203 power_on); reflexivity.
Defined.

(** The fast read of the witness above, evaluated: the two bytes stored
    are the two answers that follow the dummy byte. *)
Example fastRead_stores_answers :
  fst (exec (scripted [0; 0; 7; 7; 7; 7; 7; 0x11; 0x22])
            (c_fastRead 0x010203 2) power_on)
  = (W25Q64_OK, [0x11; 0x22]).
Proof. reflexivity. Qed.

Lemma unaddressed_mutating_frame_witness :
  exists evs,
    exec (always 0) (c_writeStatusRegister2 0x02) power_on =
    ((W25Q64_OK, []),
     mkMachine (self power_on)
               (bus (after_busy (always 0) power_on) ++ evs)) /\
    mosi_bytes evs = opcode (c_writeStatusRegister2 0x02) :: [0x02] /\
    selects evs = 1%nat /\
    well_scoped evs = true.
Proof.
  apply (unaddressed_mutating_frame (always 0) (c_writeStatusRegister2 0x02)
                                    [0x02] power_on); reflexivity.
Defined.

Lemma fields_only_set_by_init_witness :
  self (after (always 0) (c_pageProgram 0 (fun _ => 0xFF) 4) power_on)
  = self power_on.
Proof.
  apply (fields_only_set_by_init (always 0)
           (c_pageProgram 0 (fun _ => 0xFF) 4) power_on).
  reflexivity.
Defined.

Lemma sequence_well_scoped_witness :
  exists evs,
    bus (run_all (always 0)
                 [c_init 10; c_writeEnable; c_sectorErase 0x1000;
                  c_readData 0x1000 2]
                 power_on)
    = bus power_on ++ evs /\
    well_scoped evs = true.
Proof.
  apply (sequence_well_scoped (always 0)
           [c_init 10; c_writeEnable; c_sectorErase 0x1000;
            c_readData 0x1000 2]
           power_on).
  reflexivity.
Defined.

Lemma call_after_readUniqueId_witness :
  exists xfers rest,
    bus (after (always 0) c_writeEnable
               (after (always 0) c_readUniqueId power_on))
    = bus power_on ++ select_events (self power_on) ++ xfers
                   ++ select_events (self power_on) ++ rest /\
    forallb is_transfer xfers = true /\
    length xfers = 13%nat /\
    scope_run (false, false) (select_events (self power_on) ++ xfers)
    = Some (true, true) /\
    well_scoped (select_events (self power_on) ++ xfers
                 ++ select_events (self power_on) ++ rest) = false.
Proof.
  apply (call_after_readUniqueId (always 0) c_writeEnable power_on).
  reflexivity.
Defined.

Lemma program_reads_len_bytes_witness :
  exec (always 0)
       (with_buffer (c_pageProgram 0 (fun i => nth i [1; 2; 3] 0) 2)
                    (fun i => nth i [1; 2; 9] 0))
       power_on
  = exec (always 0) (c_pageProgram 0 (fun i => nth i [1; 2; 3] 0) 2)
         power_on.
Proof.
  apply (program_reads_len_bytes (always 0)
           (c_pageProgram 0 (fun i => nth i [1; 2; 3] 0) 2)
           (fun i => nth i [1; 2; 9] 0) power_on).
  intros [|[|i]] Hi; [reflexivity | reflexivity | cbn in Hi; lia].
Defined.

Lemma frame_determines_address_witness :
  exists evs evs',
    bus (after (always 0) (c_sectorErase 0x001000) power_on)
    = bus (after_busy (always 0) power_on) ++ evs /\
    bus (after (always 0) (c_sectorErase 0x002000) power_on)
    = bus (after_busy (always 0) power_on) ++ evs' /\
    (mosi_bytes evs = mosi_bytes evs' ->
     opcode (c_sectorErase 0x001000) = opcode (c_sectorErase 0x002000)
     /\ 0x001000 = 0x002000).
Proof.
  apply (frame_determines_address (always 0)
           (c_sectorErase 0x001000) (c_sectorErase 0x002000)
           0x001000 0x002000 power_on power_on);
    try reflexivity; lia.
Defined.

Lemma operations_touch_own_pin_witness :
  exists evs,
    bus (after (always 0) (c_readData 0 3) power_on) = bus power_on ++ evs /\
    Forall (own_event (self power_on)) evs.
Proof.
  apply (operations_touch_own_pin (always 0) (c_readData 0 3) power_on).
  reflexivity.
Defined.

Lemma status_field_is_never_read_witness :
  status_of (always 0) (c_sectorErase 0) power_on
  = status_of (always 0) (c_sectorErase 0) power_on_stale /\
  stored_by (always 0) (c_sectorErase 0) power_on
  = stored_by (always 0) (c_sectorErase 0) power_on_stale /\
  bus (after (always 0) (c_sectorErase 0) power_on)
  = bus (after (always 0) (c_sectorErase 0) power_on_stale).
Proof.
  apply (status_field_is_never_read (always 0) (c_sectorErase 0)
                                    power_on power_on_stale).
  repeat split.
Defined.

Lemma status_register_read_frame_witness :
  exists r0 reg,
    exec (always 3) c_readStatusRegister2 power_on =
    ((W25Q64_OK, [reg]),
     mkMachine (self power_on)
       (bus power_on ++ select_events (self power_on)
                     ++ [ETransfer (opcode c_readStatusRegister2) r0;
                         ETransfer 0 reg]
                     ++ release_events (self power_on))).
Proof.
  apply (status_register_read_frame (always 3) c_readStatusRegister2
                                    power_on).
  reflexivity.
Defined.

(** A status byte with the write-enable latch set and the busy bit clear
    does not count as busy; with both set it does. *)
Example busy_looks_at_bit_0_only :
  busy_flag (always 0x02) power_on = false /\
  busy_flag (always 0x03) power_on = true /\
  busy_flag (always 0xFE) power_on = false.
Proof. repeat split. Qed.
